(** * OTP verification lifecycle of the authentication controller

    A shallow embedding of [controllers/authController.js]: the in-memory
    rate limiter, the phone-number validator, the SMS helper and the three
    OTP handlers ([sendOTP], [verifyOTP], [resendOTP]).

    Conventions.
    - Timestamps are integers ([Date.now()] is a whole number of
      milliseconds); [Date] objects are modelled by their millisecond value.
    - A JavaScript string is a [string]; the code only ever distinguishes the
      ASCII digits and ['+'], every other code unit is "some non-digit".
    - A request-body field is an [option string]: [None] is [undefined].
    - The process-wide [Map] of the rate limiter is a [gmap string entry];
      the in-place mutation of a stored entry object is an insert at its key.
    - The user collection is a [gmap string user] keyed by phone number;
      [user.save()] writes the in-memory document back at its key. *)

From Stdlib Require Import ZArith String Ascii DecimalString Bool Lia.
From stdpp Require Import gmap strings list fin_maps.

Open Scope string_scope.
Open Scope Z_scope.

(** ** JavaScript helpers *)

(** [`${n}`] for an integer [n]. *)
Definition num_to_string (n : Z) : string :=
  NilZero.string_of_int (Z.to_int n).

(** [Math.ceil(a / b)] for integers [a] and [b > 0]. *)
Definition ceil_div (a b : Z) : Z := - ((- a) / b).

(** [`${v}`] for a body field: [undefined] prints as ["undefined"]. *)
Definition template (v : option string) : string :=
  match v with
  | Some s => s
  | None => "undefined"
  end.

(** [!v] for a body field: [undefined] and the empty string are falsy. *)
Definition falsy (v : option string) : bool :=
  match v with
  | None => true
  | Some "" => true
  | Some _ => false
  end.

(** ** Rate limiter *)

Module RateLimiter.

Record entry := Entry { count : Z; timestamp : Z; blocked : bool }.

Record result := Result {
  allowed : bool;
  message : option string;
  retryAfter : option Z
}.

Definition cleanupInterval : Z := 60 * 60 * 1000.

Definition allow : result := Result true None None.

(** [rateLimiter.checkLimit(phoneNumber)], with [now = Date.now()]. *)
Definition checkLimit (phoneNumber : option string) (now : Z)
    (attempts : gmap string entry) : result * gmap string entry :=
  let key := template phoneNumber in
  match attempts !! key with
  | None => (allow, <[key := Entry 1 now false]> attempts)
  | Some attempt =>
      if cleanupInterval <? now - timestamp attempt then
        (allow, <[key := Entry 1 now false]> attempts)
      else if blocked attempt then
        let remainingTime :=
          ceil_div (timestamp attempt + cleanupInterval - now) 1000 in
        (Result false
           (Some ("Too many attempts. Please try again after "
                  +:+ num_to_string (ceil_div remainingTime 60)
                  +:+ " minutes"))
           (Some (timestamp attempt + cleanupInterval)),
         attempts)
      else
        let count' := count attempt + 1 in
        if 10 <? count' then
          (Result false
             (Some "Too many attempts. Please try again after 1 hour")
             (Some (now + cleanupInterval)),
           <[key := Entry count' (timestamp attempt) true]> attempts)
        else
          (allow,
           <[key := Entry count' (timestamp attempt) (blocked attempt)]>
             attempts)
  end.

(** The body of the [setInterval] callback of [init]. *)
Definition sweep (now : Z) (attempts : gmap string entry)
    : gmap string entry :=
  filter (λ kv, ¬ (cleanupInterval < now - timestamp kv.2)) attempts.

(** [rateLimiter.cleanup()]: the map is cleared. *)
Definition cleanup (attempts : gmap string entry) : gmap string entry := ∅.

(** What can happen to the limiter: a request, a tick of the cleanup
    timer, a process signal. *)
Inductive event :=
| Call (phoneNumber : option string) (now : Z)
| Sweep (now : Z)
| Cleanup.

(** Runs the events in order; the answers of the calls are collected
    together with the key they were made for. *)
Fixpoint run (evs : list event) (attempts : gmap string entry)
    : list (string * result) * gmap string entry :=
  match evs with
  | [] => ([], attempts)
  | Call p now :: evs' =>
      let '(r, attempts') := checkLimit p now attempts in
      let '(rs, final) := run evs' attempts' in
      ((template p, r) :: rs, final)
  | Sweep now :: evs' => run evs' (sweep now attempts)
  | Cleanup :: evs' => run evs' (cleanup attempts)
  end.

(** The answers given for one key, in order. *)
Definition answers_for (key : string) (rs : list (string * result))
    : list result :=
  snd <$> filter (λ kr, kr.1 = key) rs.

(** An event that leaves the window that [key] opened at [t0] as it is:
    for a call with this key and for a tick of the timer the code's test
    [now - timestamp > cleanupInterval] is false; calls with other keys
    are free; the map is not wiped by a signal. *)
Definition in_window (key : string) (t0 : Z) (e : event) : Prop :=
  match e with
  | Call p now => template p = key → now - t0 <= cleanupInterval
  | Sweep now => now - t0 <= cleanupInterval
  | Cleanup => False
  end.

(** No window is open for [key] at time [now]: there is no entry, or its
    hour has elapsed. *)
Definition window_closed (key : string) (now : Z)
    (attempts : gmap string entry) : Prop :=
  match attempts !! key with
  | None => True
  | Some attempt => cleanupInterval < now - timestamp attempt
  end.

(** The invariant of a stored entry. *)
Definition entry_ok (e : entry) : Prop :=
  1 <= count e <= 11 ∧ (blocked e = true ↔ count e = 11).

End RateLimiter.

(** ** Phone-number validation *)

Inductive outcome (A : Type) :=
| Return (a : A)
| Throw (message : string).
Arguments Return {A} a.
Arguments Throw {A} message.

Definition returned {A} (o : outcome A) : bool :=
  match o with
  | Return _ => true
  | Throw _ => false
  end.

(** [\d]: an ASCII digit. *)
Definition isDigit (c : ascii) : bool :=
  ((48 <=? N_of_ascii c) && (N_of_ascii c <=? 57))%N.

(** [[1-9]]. *)
Definition isNonZeroDigit (c : ascii) : bool :=
  ((49 <=? N_of_ascii c) && (N_of_ascii c <=? 57))%N.

Definition isPlus (c : ascii) : bool := Ascii.eqb c "+".

Fixpoint digitsOnly (s : string) : string :=
  match s with
  | EmptyString => EmptyString
  | String c rest =>
      if isDigit c then String c (digitsOnly rest) else digitsOnly rest
  end.

Fixpoint allDigits (s : string) : bool :=
  match s with
  | EmptyString => true
  | String c rest => isDigit c && allDigits rest
  end.

(** [phoneNumber.replace(/(?!^\+)[^\d]/g, '')]: every non-digit is removed,
    except a ['+'] standing at index 0. *)
Definition cleanPhoneNumber (phoneNumber : string) : string :=
  match phoneNumber with
  | EmptyString => EmptyString
  | String c rest =>
      if isPlus c then String c (digitsOnly rest) else digitsOnly phoneNumber
  end.

Definition hasPlus (s : string) : bool :=
  match s with
  | String c _ => isPlus c
  | EmptyString => false
  end.

Definition stripPlus (s : string) : string :=
  match s with
  | String c rest => if isPlus c then rest else s
  | EmptyString => EmptyString
  end.

(** [s.match(/^\+?[1-9]\d{1,14}$/)]. *)
Definition matchesInternational (s : string) : bool :=
  match stripPlus s with
  | String c rest =>
      isNonZeroDigit c && allDigits rest
      && (1 <=? String.length rest)%nat && (String.length rest <=? 14)%nat
  | EmptyString => false
  end.

(** [/^\d{6}$/.test(s)]. *)
Definition matchesSixDigits (s : string) : bool :=
  allDigits s && (String.length s =? 6)%nat.

Definition validatePhoneNumber (phoneNumber : string) : outcome string :=
  let cleanNumber := cleanPhoneNumber phoneNumber in
  if negb (matchesInternational cleanNumber) then
    Throw "Invalid phone number format. Please use international format (e.g., +1234567890)"
  else if (String.length cleanNumber <? 8)%nat then
    Throw "Phone number too short. Please include country code."
  else if (15 <? String.length cleanNumber)%nat then
    Throw "Phone number too long. Maximum 15 digits allowed."
  else Return cleanNumber.

(** The number of digits of a phone number (the ['+'] is not one). *)
Definition digitCount (phoneNumber : string) : nat :=
  String.length (digitsOnly phoneNumber).

(** The first digit of a phone number is one of 1-9. *)
Definition leadingNonZero (phoneNumber : string) : bool :=
  match digitsOnly phoneNumber with
  | String c _ => isNonZeroDigit c
  | EmptyString => false
  end.

(** ** SMS delivery *)

(** [haystack.includes(needle)]. *)
Fixpoint includes (needle haystack : string) : bool :=
  String.prefix needle haystack
  || match haystack with
     | EmptyString => false
     | String _ rest => includes needle rest
     end.

(** [errors.join(', ')]. *)
Definition join (errors : list string) : string := String.concat ", " errors.

(** The part of the process environment the handlers read. A configured SMS
    client is given by what its [messages.create] call does for the request
    at hand: it resolves, or it throws an error with the given message. *)
Record environment := Environment {
  NODE_ENV : string;
  messageBirdClient : option (outcome unit);
  twilioClient : option (outcome unit)
}.

Definition development (env : environment) : bool :=
  String.eqb (NODE_ENV env) "development".

(** One provider block of [sendSMS]: [if (client) { try { await
    client.messages.create(...); return; } catch (e) { errors.push(...) } }].
    The flag tells whether the message went out. *)
Definition tryProvider (name : string) (client : option (outcome unit))
    (errors : list string) : bool * list string :=
  match client with
  | None => (false, errors)
  | Some (Return _) => (true, errors)
  | Some (Throw m) => (false, (errors ++ [name +:+ ": " +:+ m])%list)
  end.

(** The provider attempts of [sendSMS], MessageBird first, Twilio as the
    fallback. *)
Definition tryProviders (env : environment) : outcome unit :=
  let '(sent, errors) := tryProvider "MessageBird" (messageBirdClient env) [] in
  if sent then Return tt
  else
    let '(sent, errors) := tryProvider "Twilio" (twilioClient env) errors in
    if sent then Return tt
    else Throw ("Failed to send SMS: " +:+ join errors).

(** The [catch] of [sendSMS]: errors whose text mentions a phone number are
    wrapped as validation failures. *)
Definition wrapValidation {A} (o : outcome A) : outcome A :=
  match o with
  | Throw m =>
      if includes "phone number" m
      then Throw ("Phone number validation failed: " +:+ m)
      else Throw m
  | Return a => Return a
  end.

(** [sendSMS(phoneNumber, message)]. The text of the message does not
    influence the modelled providers. *)
Definition sendSMS (env : environment) (phoneNumber : option string)
    (message : string) : outcome unit :=
  wrapValidation
    match phoneNumber with
    | None => Throw "Cannot read properties of undefined (reading 'replace')"
    | Some p =>
        match validatePhoneNumber p with
        | Throw m => Throw m
        | Return validatedNumber =>
            match messageBirdClient env, twilioClient env with
            | None, None =>
                if development env then Return tt
                else Throw "No SMS service configured. Please configure MessageBird or Twilio."
            | _, _ => tryProviders env
            end
        end
    end.

(** ** The user document *)

Module User.

(** [user.phoneOTP]. *)
Record OtpRecord := OtpRecord_ {
  code : option string;
  expiresAt : option Z;
  attempts : Z
}.

(** [user.otpRequestCount]. *)
Record OtpRequestQuota := OtpRequestQuota_ {
  count : Z;
  lastRequest : Z
}.

(** The fields of the document that the OTP handlers read or write. *)
Record user := User_ {
  isActive : bool;
  phoneOTP : OtpRecord;
  otpRequestCount : OtpRequestQuota;
  refreshToken : option string
}.

(** What [user.verifyOTP] resolves to. *)
Record verification := Verification {
  isValid : bool;
  message : string
}.

(** The instance methods of the model that the handlers call. They live in
    [models/User.js]; the handlers are written against this interface.
    Each method gets the clock reading it works with, [generateOTP] also
    the code that was drawn; a method returns the document as it has left
    it. *)
Class Methods := {
  canRequestOTP : Z → user → bool;
  generateOTP : string → Z → user → string * user;
  verifyOTP : string → Z → user → verification * user;
  addNotification : string → string → user → user
}.

Definition day : Z := 24 * 60 * 60 * 1000.

(** Modelled from the spec: [canRequestOTP] of [models/User.js], which is
    not among the sources: allowed unless [count >= 5] and less than 24
    hours have elapsed since [lastRequest]. *)
Definition specCanRequestOtp (now : Z) (u : user) : bool :=
  negb ((5 <=? count (otpRequestCount u))
        && (now - lastRequest (otpRequestCount u) <? day)).

(** Modelled from the spec: [generateOTP] of [models/User.js], which is
    not among the sources. [drawn] is the random 6-digit string. The code
    is set, it expires after 60 seconds, the attempts start again at 0;
    the quota restarts at 1 when 24 hours have elapsed since
    [lastRequest] and is incremented otherwise, and [lastRequest] is
    refreshed either way. *)
Definition specGenerateOtp (drawn : string) (now : Z) (u : user)
    : string * user :=
  let quota := otpRequestCount u in
  let quota' :=
    if day <=? now - lastRequest quota
    then OtpRequestQuota_ 1 now
    else OtpRequestQuota_ (count quota + 1) now in
  (drawn,
   User_ (isActive u)
         (OtpRecord_ (Some drawn) (Some (now + 60 * 1000)) 0)
         quota'
         (refreshToken u)).

Definition setPhoneOTP (otp : OtpRecord) (u : user) : user :=
  User_ (isActive u) otp (otpRequestCount u) (refreshToken u).

(** Modelled from the spec: [verifyOTP] of [models/User.js], which is not
    among the sources. The four failure cases are tried in the order of
    the spec; only a comparison increments [attempts]; a match clears
    [code] and [expiresAt]. The wording of the messages other than the
    first is the model's. *)
Definition specVerifyOtp (submittedCode : string) (now : Z) (u : user)
    : verification * user :=
  let otp := phoneOTP u in
  match code otp with
  | None => (Verification false "No OTP requested", u)
  | Some stored =>
      let expired :=
        match expiresAt otp with
        | Some t => t <=? now
        | None => true
        end in
      if expired then (Verification false "OTP has expired", u)
      else if 3 <=? attempts otp then
        (Verification false "Too many attempts. Please request a new OTP", u)
      else
        let attempts' := attempts otp + 1 in
        if String.eqb submittedCode stored then
          (Verification true "OTP verified successfully",
           setPhoneOTP (OtpRecord_ None None attempts') u)
        else
          (Verification false "Incorrect OTP",
           setPhoneOTP (OtpRecord_ (code otp) (expiresAt otp) attempts') u)
  end.

(** Modelled from the spec: the methods of [models/User.js] as the spec
    describes them. Notifications are outside the modelled fields. *)
Definition specMethods : Methods := {|
  canRequestOTP := specCanRequestOtp;
  generateOTP := specGenerateOtp;
  verifyOTP := specVerifyOtp;
  addNotification := λ _ _ u, u
|}.

(** A series of verifications of one document, in order; the answers are
    collected. *)
Fixpoint verifyAll `{M : Methods} (submissions : list (string * Z)) (u : user)
    : list verification * user :=
  match submissions with
  | [] => ([], u)
  | (submitted, now) :: rest =>
      let '(v, u') := verifyOTP submitted now u in
      let '(vs, final) := verifyAll rest u' in
      (v :: vs, final)
  end.

End User.

(** ** Requests, responses and the state of the server *)

Inductive json :=
| JNull
| JBool (b : bool)
| JNum (n : Z)
| JStr (s : string)
| JDate (ms : Z)
| JDoc (u : User.user).

(** An object literal: a field whose value is [undefined] does not appear
    in the serialised body. *)
Definition object (fields : list (string * option json))
    : list (string * json) :=
  omap (λ kv, pair kv.1 <$> kv.2) fields.

Fixpoint field (name : string) (body : list (string * json)) : option json :=
  match body with
  | [] => None
  | (k, v) :: rest => if String.eqb k name then Some v else field name rest
  end.

Record response := Response {
  status : Z;
  body : list (string * json)
}.

Record request := Request {
  phoneNumber : option string;
  otp : option string
}.

Record world := World {
  limiter : gmap string RateLimiter.entry;
  users : gmap string User.user
}.

(** [User.findOne({ phoneNumber })]: a query without a phone number is
    taken to match no document. *)
Definition findOne (phoneNumber : option string)
    (users : gmap string User.user) : option (string * User.user) :=
  match phoneNumber with
  | Some p => pair p <$> users !! p
  | None => None
  end.

(** [user.save()] for the document found under [key]. *)
Definition save (key : string) (u : User.user) (w : world) : world :=
  World (limiter w) (<[key := u]> (users w)).

(** [m || fallback]. *)
Definition orElse (m fallback : string) : string :=
  if String.eqb m "" then fallback else m.

(** ** The OTP handlers

    A handler takes the clock reading [now] of the request (the clock reads
    of one run are taken to return the same millisecond) and returns the
    response together with the state it leaves behind. Database calls are
    taken to succeed. *)

Section Handlers.

Context `{M : User.Methods}.
Variable env : environment.

Definition failure (st : Z) (m : string) : response :=
  Response st (object [("success", Some (JBool false)); ("msg", Some (JStr m))]).

(** [process.env.NODE_ENV === 'development' ? error.message : undefined]. *)
Definition devError (m : string) : option json :=
  if development env then Some (JStr m) else None.

(** The 429 answer to a request the rate limiter turned down. *)
Definition rateLimited (r : RateLimiter.result) : response :=
  Response 429
    (object [("success", Some (JBool false));
             ("msg", JStr <$> RateLimiter.message r);
             ("retryAfter", JDate <$> RateLimiter.retryAfter r)]).

(** The 429 answer to a request over the daily quota. *)
Definition dailyLimitExceeded (now : Z) (u : User.user) : response :=
  let lastRequest := User.lastRequest (User.otpRequestCount u) in
  let hoursSinceLastRequest := ceil_div (now - lastRequest) (1000 * 60 * 60) in
  Response 429
    (object [("success", Some (JBool false));
             ("msg", Some (JStr ("Daily OTP limit exceeded. Please try again after "
                                 +:+ num_to_string (24 - hoursSinceLastRequest)
                                 +:+ " hours.")));
             ("nextAllowedDate", Some (JDate (lastRequest + 24 * 60 * 60 * 1000)))]).

(** The compensation after a failed delivery:
    [user.phoneOTP.code = null; user.phoneOTP.expiresAt = null;
     user.otpRequestCount.count -= 1]. *)
Definition revertOTP (u : User.user) : User.user :=
  User.User_ (User.isActive u)
    (User.OtpRecord_ None None (User.attempts (User.phoneOTP u)))
    (User.OtpRequestQuota_ (User.count (User.otpRequestCount u) - 1)
       (User.lastRequest (User.otpRequestCount u)))
    (User.refreshToken u).

Definition dateOrNull (t : option Z) : json :=
  match t with
  | Some ms => JDate ms
  | None => JNull
  end.

(** The 200 answer of [sendOTP] and [resendOTP]. *)
Definition otpSent (m : string) (code : string) (u : User.user) : response :=
  let remainingAttempts := 5 - User.count (User.otpRequestCount u) in
  Response 200
    (object [("success", Some (JBool true));
             ("msg", Some (JStr m));
             ("expiresIn", Some (JNum 60));
             ("remainingAttempts", Some (JNum remainingAttempts));
             ("retryAfter", Some (dateOrNull (User.expiresAt (User.phoneOTP u))));
             ("otp", if development env then Some (JStr code) else None)]).

(** The outer [catch] of [sendOTP]. *)
Definition sendOTP_catch (m : string) : response :=
  if includes "validation failed" m then failure 400 m
  else
    Response 500
      (object [("success", Some (JBool false));
               ("msg", Some (JStr (orElse m "Error sending OTP")));
               ("error", devError m)]).

(** The outer [catch] of [resendOTP]. *)
Definition resendOTP_catch (m : string) : response :=
  Response 500
    (object [("success", Some (JBool false));
             ("msg", Some (JStr (orElse m "Error resending OTP")));
             ("error", devError m)]).

Definition sendOTP (drawn : string) (now : Z) (req : request) (w : world)
    : response * world :=
  if falsy (phoneNumber req) then (failure 400 "Phone number is required", w)
  else
    let '(rateLimitResult, limiter') :=
      RateLimiter.checkLimit (phoneNumber req) now (limiter w) in
    let w := World limiter' (users w) in
    if negb (RateLimiter.allowed rateLimitResult) then
      (rateLimited rateLimitResult, w)
    else
      match findOne (phoneNumber req) (users w) with
      | None => (failure 404 "No user found with this phone number", w)
      | Some (key, user) =>
          if negb (User.isActive user) then
            (failure 401 "Account is deactivated. Please contact support.", w)
          else if negb (User.canRequestOTP now user) then
            (dailyLimitExceeded now user, w)
          else
            let '(code, user) := User.generateOTP drawn now user in
            let w := save key user w in
            match sendSMS env (phoneNumber req)
                    ("Your verification code is: " +:+ code
                     +:+ ". Valid for 60 seconds. Do not share this code with anyone.")
            with
            | Throw m =>
                if negb (development env) then
                  let user := revertOTP user in
                  let w := save key user w in
                  (sendOTP_catch ("Failed to send OTP: " +:+ m), w)
                else (otpSent "OTP sent successfully" code user, w)
            | Return _ => (otpSent "OTP sent successfully" code user, w)
            end
      end.

(** [tokens] is what [generateTokens(user._id)] signs for the user. *)
Definition verifyOTP (tokens : string * string) (now : Z) (req : request)
    (w : world) : response * world :=
  if falsy (phoneNumber req) || falsy (otp req) then
    (failure 400 "Phone number and OTP are required", w)
  else if negb (matchesSixDigits (template (otp req))) then
    (failure 400 "Invalid OTP format. Must be 6 digits.", w)
  else
    match findOne (phoneNumber req) (users w) with
    | None => (failure 404 "No user found with this phone number", w)
    | Some (key, user) =>
        if negb (User.isActive user) then
          (failure 401 "Account is deactivated. Please contact support.", w)
        else
          let '(verificationResult, user) :=
            User.verifyOTP (template (otp req)) now user in
          if negb (User.isValid verificationResult) then
            let remainingAttempts := 3 - User.attempts (User.phoneOTP user) in
            (Response 400
               (object [("success", Some (JBool false));
                        ("msg", Some (JStr (User.message verificationResult)));
                        ("remainingAttempts", Some (JNum remainingAttempts));
                        ("canRequestNew", Some (JBool (User.canRequestOTP now user)));
                        ("retryAfter",
                         Some (if remainingAttempts =? 0
                               then JDate (now + 15 * 60 * 1000)
                               else JNull))]),
             w)
          else
            let '(accessToken, refreshToken) := tokens in
            let user :=
              User.User_ (User.isActive user) (User.phoneOTP user)
                (User.otpRequestCount user) (Some refreshToken) in
            let w := save key user w in
            let user :=
              User.addNotification "system"
                "Phone number verified successfully" user in
            let w := save key user w in
            (Response 200
               (object [("success", Some (JBool true));
                        ("msg", Some (JStr (User.message verificationResult)));
                        ("accessToken", Some (JStr accessToken));
                        ("refreshToken", Some (JStr refreshToken));
                        ("user", Some (JDoc user));
                        ("isPhoneVerified", Some (JBool true))]),
             w)
    end.

(** [user.phoneOTP.expiresAt && user.phoneOTP.expiresAt > Date.now()]:
    the expiry of the previous OTP when it still lies ahead. *)
Definition pendingExpiry (now : Z) (u : User.user) : option Z :=
  match User.expiresAt (User.phoneOTP u) with
  | Some t => if now <? t then Some t else None
  | None => None
  end.

Definition resendOTP (drawn : string) (now : Z) (req : request) (w : world)
    : response * world :=
  let '(rateLimitResult, limiter') :=
    RateLimiter.checkLimit (phoneNumber req) now (limiter w) in
  let w := World limiter' (users w) in
  if negb (RateLimiter.allowed rateLimitResult) then
    (rateLimited rateLimitResult, w)
  else
    match findOne (phoneNumber req) (users w) with
    | None => (failure 404 "No user found with this phone number", w)
    | Some (key, user) =>
        match pendingExpiry now user with
        | Some expiresAt =>
            let remainingTime := ceil_div (expiresAt - now) 1000 in
            (Response 429
               (object [("success", Some (JBool false));
                        ("msg", Some (JStr ("Please wait "
                                            +:+ num_to_string remainingTime
                                            +:+ " seconds before requesting a new OTP")));
                        ("retryAfter", Some (JDate expiresAt))]),
             w)
        | None =>
            if negb (User.canRequestOTP now user) then
              (dailyLimitExceeded now user, w)
            else
              let '(code, user) := User.generateOTP drawn now user in
              let w := save key user w in
              match sendSMS env (phoneNumber req)
                      ("Your new verification code is: " +:+ code
                       +:+ ". Valid for 60 seconds. Do not share this code with anyone.")
              with
              | Throw m =>
                  if negb (development env) then
                    let user := revertOTP user in
                    let w := save key user w in
                    (resendOTP_catch m, w)
                  else (otpSent "New OTP sent successfully" code user, w)
              | Return _ => (otpSent "New OTP sent successfully" code user, w)
              end
        end
    end.

End Handlers.

(** ** Sample data *)

Module Sample.

Definition phone : string := "+15551234567".

(** An active account that has never asked for an OTP. *)
Definition alice : User.user :=
  User.User_ true (User.OtpRecord_ None None 0) (User.OtpRequestQuota_ 0 0) None.

(** A deactivated account. *)
Definition bob : User.user :=
  User.User_ false (User.OtpRecord_ None None 0) (User.OtpRequestQuota_ 0 0) None.

(** [alice] holding the code 042917, issued at time 1000, after three
    wrong submissions. *)
Definition lockedAlice : User.user :=
  (User.verifyAll (M := User.specMethods)
     [("111111", 2000); ("222222", 3000); ("333333", 4000)]
     (User.specGenerateOtp "042917" 1000 alice).2).2.

(** [alice] holding a code that expires at time 61000. *)
Definition waitingAlice : User.user :=
  (User.specGenerateOtp "042917" 1000 alice).2.

Definition production : environment :=
  Environment "production" None (Some (Return tt)).

(** Production with Twilio alone, which turns the number down. *)
Definition twilioRejects : environment :=
  Environment "production" None
    (Some (Throw "The 'To' number +15551234567 is not a valid phone number.")).

Definition request_ : request := Request (Some phone) None.

Definition world_ (u : User.user) : world := World ∅ {[ phone := u ]}.

(** The limiter has blocked the number at time 1000; [u] is its account. *)
Definition blockedWorld (u : User.user) : world :=
  World {[ phone := RateLimiter.Entry 11 1000 true ]} {[ phone := u ]}.

(** Eleven calls for one number within a few seconds, a call for another
    number and a timer tick in between. *)
Definition burst : list RateLimiter.event :=
  let call := RateLimiter.Call (Some phone) in
  [call 1000; call 2000; RateLimiter.Call (Some "+15557654321") 2500;
   call 3000; call 4000; RateLimiter.Sweep 4500; call 5000; call 6000;
   call 7000; call 8000; call 9000; call 10000; call 11000].

End Sample.

(** ** The claims that the code does not meet, as they are worded *)

(** The cleaned number has the shape the regular expression asks for before
    it looks at the first digit and at the length: an optional ['+'], then
    digits only. *)
Definition plusThenDigits (s : string) : bool := allDigits (stripPlus s).

(** The claim "accepted exactly when the cleaned number is an optional
    leading ['+'] followed by digits only and totals 8-15 digits", at one
    phone number. *)
Definition accepted_iff_8_to_15_digits (phoneNumber : string) : Prop :=
  returned (validatePhoneNumber phoneNumber) = true
  ↔ plusThenDigits (cleanPhoneNumber phoneNumber) = true
    ∧ (8 <= digitCount (cleanPhoneNumber phoneNumber) <= 15)%nat.

(** "For a user whose prior OTP has not yet expired, a resend request is
    answered 429 with [retryAfter] equal to the existing [expiresAt], and
    nothing is generated or charged to the daily quota", at one request. *)
Definition resend_echoes_expiry `{M : User.Methods} (env : environment)
    (drawn : string) (now : Z) (req : request) (w : world) : Prop :=
  ∀ key user t,
    findOne (phoneNumber req) (users w) = Some (key, user) →
    User.expiresAt (User.phoneOTP user) = Some t →
    now < t →
    status (resendOTP env drawn now req w).1 = 429
    ∧ field "retryAfter" (body (resendOTP env drawn now req w).1)
      = Some (JDate t)
    ∧ users (resendOTP env drawn now req w).2 = users w.

(** ** Runs of the rate limiter: what is counted, and what may be left out *)

Module RateLimiterRuns.
Import RateLimiter.

(** How many of the answers for [key] were "allowed". *)
Definition allowed_count (key : string) (rs : list (string * result)) : nat :=
  length (filter (λ r, allowed r = true) (answers_for key rs)).

(** An event whose clock reading lies in the span of one hour that starts
    at [a]; a signal, which wipes the map, is not such an event. *)
Definition in_span (a : Z) (e : event) : Prop :=
  match e with
  | Call _ now => a <= now <= a + cleanupInterval
  | Sweep now => a <= now <= a + cleanupInterval
  | Cleanup => False
  end.

(** How many further calls for [key] the map can still let through inside
    the span that starts at [a]: what is left of the open window, and a
    whole new window when the open one started before the span. *)
Definition capacity (a : Z) (key : string) (attempts : gmap string entry) : Z :=
  match attempts !! key with
  | None => 10
  | Some e =>
      (if blocked e then 0 else 10 - count e)
      + (if timestamp e <? a then 10 else 0)
  end.

(** The clock readings of the events do not go back, starting from [t]. *)
Fixpoint monotone (t : Z) (evs : list event) : Prop :=
  match evs with
  | [] => True
  | Call _ now :: evs' => t <= now ∧ monotone now evs'
  | Sweep now :: evs' => t <= now ∧ monotone now evs'
  | Cleanup :: evs' => monotone t evs'
  end.

Definition is_sweep (e : event) : bool :=
  match e with
  | Sweep _ => true
  | _ => false
  end.

(** The run without the ticks of the cleanup timer. *)
Definition without_sweeps (evs : list event) : list event :=
  filter (λ e, is_sweep e = false) evs.

(** A call for a number other than [key]. *)
Definition foreign_call (key : string) (e : event) : Prop :=
  match e with
  | Call p _ => template p ≠ key
  | _ => False
  end.

Global Instance foreign_call_dec key e : Decision (foreign_call key e).
Proof. destruct e; simpl; apply _. Defined.

(** The run without the calls for other numbers than [key]. *)
Definition only_for (key : string) (evs : list event) : list event :=
  filter (λ e, ¬ foreign_call key e) evs.

(** What the map without the dropped sweeps may still hold at [key] at
    time [t]: the same as the swept map, or an entry whose hour is over
    where the swept map has none. *)
Definition swept_at (t : Z) (key : string)
    (swept unswept : gmap string entry) : Prop :=
  swept !! key = unswept !! key
  ∨ (swept !! key = None
     ∧ ∃ e, unswept !! key = Some e ∧ cleanupInterval < t - timestamp e).

(** The relation of the swept map to the unswept one, at every key. *)
Definition swept (t : Z) (m1 m2 : gmap string entry) : Prop :=
  ∀ k, swept_at t k m1 m2.

End RateLimiterRuns.

(** ** The life cycle of the rate limiter: [init], the timer, the signals *)

Module Lifecycle.

(** The [rateLimiter] object with the parts of the process it registers
    itself in: the interval timers the event loop holds (a timer is named
    by a handle, [setInterval] hands out a fresh one) and the listeners on
    SIGTERM and on SIGINT ([init] adds one to each). *)
Record state := State {
  attempts : gmap string RateLimiter.entry;
  cleanupTimer : option nat;
  intervals : gset nat;
  nextHandle : nat;
  listeners : nat
}.

(** The object as the module creates it, before [rateLimiter.init()]. *)
Definition created : state := State ∅ None ∅ 0 0.

(** [if (this.cleanupTimer) { clearInterval(this.cleanupTimer); }]. *)
Definition clearTimer (s : state) : gset nat :=
  match cleanupTimer s with
  | Some handle => intervals s ∖ {[handle]}
  | None => intervals s
  end.

Definition init (s : state) : state :=
  State (attempts s) (Some (nextHandle s))
        (clearTimer s ∪ {[nextHandle s]}) (S (nextHandle s))
        (S (listeners s)).

Definition cleanup (s : state) : state :=
  State ∅ None (clearTimer s) (nextHandle s) (listeners s).

(** A signal runs every listener registered for it, each calling
    [this.cleanup()]. *)
Definition signal (s : state) : state := Nat.iter (listeners s) cleanup s.

(** One period of the timers: every interval the event loop holds runs
    the sweep. *)
Definition tick (now : Z) (s : state) : state :=
  State (Nat.iter (size (intervals s)) (RateLimiter.sweep now) (attempts s))
        (cleanupTimer s) (intervals s) (nextHandle s) (listeners s).

Inductive step :=
| Init
| Signal
| Tick (now : Z)
| Request (phoneNumber : option string) (now : Z).

Definition apply (st : step) (s : state) : state :=
  match st with
  | Init => init s
  | Signal => signal s
  | Tick now => tick now s
  | Request p now =>
      State (RateLimiter.checkLimit p now (attempts s)).2
            (cleanupTimer s) (intervals s) (nextHandle s) (listeners s)
  end.

Definition play (steps : list step) (s : state) : state :=
  foldl (λ s st, apply st s) s steps.

(** The event loop holds the timer the object remembers, and no other. *)
Definition tidy (s : state) : Prop :=
  intervals s = match cleanupTimer s with
                | Some handle => {[handle]}
                | None => ∅
                end.

End Lifecycle.

(** ** More sample runs *)

Module SampleRuns.

(** An entry that has counted one call at time 0, and a span of an hour
    that starts just after it: nine more calls go through in the old
    window, and at the far end of the span, where the old hour is over,
    ten more in a new one. *)
Definition oldEntry : gmap string RateLimiter.entry :=
  {[ Sample.phone := RateLimiter.Entry 1 0 false ]}.

Definition straddle : list RateLimiter.event :=
  replicate 9 (RateLimiter.Call (Some Sample.phone) 1)
  ++ replicate 11 (RateLimiter.Call (Some Sample.phone) 3600001).

(** Two numbers and a timer, with the clock going forward. *)
Definition mixed : list RateLimiter.event :=
  [RateLimiter.Call (Some Sample.phone) 1000;
   RateLimiter.Call (Some "+15557654321") 2000;
   RateLimiter.Sweep 3600000;
   RateLimiter.Call (Some Sample.phone) 3601001;
   RateLimiter.Sweep 7200000;
   RateLimiter.Call (Some "+15557654321") 7200001].

(** The limiter has blocked the number in the window opened at 1000. *)
Definition blockedNumber : gmap string RateLimiter.entry :=
  {[ Sample.phone := RateLimiter.Entry 11 1000 true ]}.

End SampleRuns.

(** ** More sample data for the handlers *)

Module SampleRequests.

(** An account stored under a number that is too short to send to. *)
Definition shortPhone : string := "12345".

Definition shortWorld : world := World ∅ {[ shortPhone := Sample.alice ]}.

Definition shortRequest : request := Request (Some shortPhone) None.

(** Development mode without any SMS client. *)
Definition dev : environment := Environment "development" None None.

(** Development mode with a Twilio client that fails. *)
Definition devTwilioDown : environment :=
  Environment "development" None (Some (Throw "connect ETIMEDOUT")).

End SampleRequests.

(** ** Start of the module: the environment check and the SMS clients *)

Module Startup.

(** [process.env.NAME] is a lookup in a map of strings; [!value] holds for
    a variable that is not set and for one set to the empty string. *)
Definition unset (vars : gmap string string) (name : string) : bool :=
  falsy (vars !! name).

Definition validateEnvVariables (vars : gmap string string) : outcome unit :=
  let requiredVars :=
    [("JWT_SECRET", vars !! "JWT_SECRET");
     ("REFRESH_TOKEN_SECRET", vars !! "REFRESH_TOKEN_SECRET");
     ("NODE_ENV", vars !! "NODE_ENV")] in
  let missingVars := fst <$> filter (λ kv, falsy kv.2 = true) requiredVars in
  if (0 <? length missingVars)%nat then
    Throw ("Missing required environment variables: " +:+ join missingVars)
  else if bool_decide (vars !! "NODE_ENV" = Some "production")
          && unset vars "MESSAGEBIRD_API_KEY"
          && negb (negb (unset vars "TWILIO_ACCOUNT_SID")
                   && negb (unset vars "TWILIO_AUTH_TOKEN")
                   && negb (unset vars "TWILIO_PHONE_NUMBER")) then
    Throw "Production environment requires either MessageBird or Twilio configuration"
  else Return tt.

(** The module-level initialisation. A failed check ends the process
    ([process.exit(1)]). Otherwise the clients are built where their
    variables are set; [twilio] and [messagebird] say what the constructor
    gives: [None] when it throws (the client stays [null]), or the
    behaviour of the client it returns. *)
Definition start (vars : gmap string string)
    (twilio messagebird : option (outcome unit)) : outcome environment :=
  match validateEnvVariables vars with
  | Throw m => Throw m
  | Return _ =>
      let twilioClient :=
        if negb (unset vars "TWILIO_ACCOUNT_SID")
           && negb (unset vars "TWILIO_AUTH_TOKEN")
        then twilio else None in
      let messageBirdClient :=
        if negb (unset vars "MESSAGEBIRD_API_KEY") then messagebird else None in
      Return (Environment (default "" (vars !! "NODE_ENV"))
                messageBirdClient twilioClient)
  end.

(** A production setting with Twilio alone. *)
Definition sampleVars : gmap string string :=
  list_to_map
    [("JWT_SECRET", "s3cret"); ("REFRESH_TOKEN_SECRET", "r3fresh");
     ("NODE_ENV", "production"); ("TWILIO_ACCOUNT_SID", "AC123");
     ("TWILIO_AUTH_TOKEN", "token"); ("TWILIO_PHONE_NUMBER", "+15550001111")].

End Startup.

(** ** Registration: the signup handler and the signup form *)

Module Signup.

(** The JavaScript built-ins the handler and the form call on strings,
    [String.prototype.trim] and [String.prototype.toLowerCase], are taken
    as they are: the handler is written against them. *)
Class StringOps := {
  trim : string → string;
  toLowerCase : string → string
}.

(** The stored fields of a registered user. *)
Record account := Account {
  username : string;
  email : string;
  acceptedTerms : bool
}.

(** The body of [POST /signup]; a checkbox that is absent is falsy like an
    unchecked one. *)
Record form := Form {
  formUsername : option string;
  formEmail : option string;
  checkbox : bool
}.

(** An error thrown by the database layer, as far as the handler looks at
    it: [error.code], [error.name] and the messages of [error.errors]. *)
Record dbError := DbError {
  code : option Z;
  name : string;
  messages : list string
}.

(** The answer: [error] for the failures, [message] and the new user (its
    [_id], [username], [email]) for the success. *)
Record answer := Answer {
  status : Z;
  success : bool;
  error : option string;
  message : option string;
  user : option (string * string * string)
}.

Definition refuse (st : Z) (e : string) : answer :=
  Answer st false (Some e) None None.

(** [email.trim().toLowerCase()] for the address of a request. *)
Definition cleaned `{Ops : StringOps} (req : form) : string :=
  toLowerCase (trim (template (formEmail req))).

(** [signup], on the collection keyed by e-mail address. [newId] is the
    [_id] the database gives a created document; [createError] is the
    error [User.create] throws, if it throws. *)
Definition signup `{Ops : StringOps} (newId : string) (createError : option dbError)
    (req : form) (users : gmap string account) : answer * gmap string account :=
  if falsy (formUsername req) || falsy (formEmail req) then
    (refuse 400 "Please provide both name and email", users)
  else if negb (checkbox req) then
    (refuse 400 "Please accept the terms and conditions", users)
  else
    let cleanEmail := cleaned req in
    match users !! cleanEmail with
    | Some existingUser => (refuse 400 "Email already exists", users)
    | None =>
        match createError with
        | None =>
            let user :=
              Account (trim (template (formUsername req))) cleanEmail
                      (checkbox req) in
            (Answer 201 true None (Some "Registration successful")
                    (Some (newId, username user, email user)),
             <[cleanEmail := user]> users)
        | Some dbError =>
            if bool_decide (code dbError = Some 11000) then
              (refuse 400 "Email already exists", users)
            else if String.eqb (name dbError) "ValidationError" then
              (refuse 400 (join (messages dbError)), users)
            else (refuse 500 "Server error during registration", users)
        end
    end.

(** The state of the signup form: the three inputs. *)
Record formData := FormData {
  typedUsername : string;
  typedEmail : string;
  ticked : bool
}.

(** [handleSubmit] of the signup component that tests the trimmed inputs,
    up to the request: the error it shows, or the body it posts. *)
Definition handleSubmit `{Ops : StringOps} (data : formData) : string + form :=
  if String.eqb (trim (typedUsername data)) "" then
    inl "Please enter your name"
  else if String.eqb (trim (typedEmail data)) "" then
    inl "Please enter your email"
  else if negb (ticked data) then
    inl "Please accept the terms and conditions"
  else
    inr (Form (Some (trim (typedUsername data)))
              (Some (trim (typedEmail data)))
              (ticked data)).

(** A series of signup requests, each with what the database does for it. *)
Fixpoint signups `{Ops : StringOps}
    (reqs : list (string * option dbError * form))
    (users : gmap string account) : list answer * gmap string account :=
  match reqs with
  | [] => ([], users)
  | (newId, createError, req) :: rest =>
      let '(a, users') := signup newId createError req users in
      let '(answers, final) := signups rest users' in
      (a :: answers, final)
  end.

(** String operations for the samples: ASCII blanks are trimmed at both
    ends, ASCII capitals are lowered. *)
Definition lowerAscii (c : ascii) : ascii :=
  let n := N_of_ascii c in
  if ((65 <=? n) && (n <=? 90))%N then ascii_of_N (n + 32) else c.

Fixpoint lower (s : string) : string :=
  match s with
  | EmptyString => EmptyString
  | String c rest => String (lowerAscii c) (lower rest)
  end.

Fixpoint trimStart (s : string) : string :=
  match s with
  | String " " rest => trimStart rest
  | _ => s
  end.

Definition sampleOps : StringOps := {|
  trim := λ s, String.rev (trimStart (String.rev (trimStart s)));
  toLowerCase := lower
|}.

End Signup.

(** ** The signup modal of [components/Auth/Signup/Signup.jsx] *)

Module SignupModal.

(** [handleSubmit] of this component, up to the request: the inputs are
    tested as they were typed and trimmed only for the request. *)
Definition handleSubmit `{Ops : Signup.StringOps} (data : Signup.formData)
    : string + Signup.form :=
  if String.eqb (Signup.typedUsername data) ""
     || String.eqb (Signup.typedEmail data) "" then
    inl "Please fill in all fields"
  else if negb (Signup.ticked data) then
    inl "Please accept the terms and conditions"
  else
    inr (Signup.Form (Some (Signup.trim (Signup.typedUsername data)))
                     (Some (Signup.trim (Signup.typedEmail data)))
                     (Signup.ticked data)).

End SignupModal.

(** ** Sessions: the refresh-token handlers *)

Module Session.

(** [jwt.verify(refreshToken, REFRESH_TOKEN_SECRET)] followed by
    [decoded.user.id]: the user id a token was signed for, or [None] when
    one of the two throws. *)
Class Jwt := {
  verify : string → option string
}.

(** [refreshToken], on the collection keyed by [_id]. [tokens] is what
    [generateTokens(user._id)] signs: the access and the refresh token. *)
Definition refreshToken `{J : Jwt} (tokens : string * string)
    (presented : option string) (users : gmap string User.user)
    : response * gmap string User.user :=
  if falsy presented then (failure 400 "Refresh token is required", users)
  else
    match verify (template presented) with
    | None => (failure 401 "Invalid refresh token", users)
    | Some id =>
        match users !! id with
        | None => (failure 401 "Invalid refresh token", users)
        | Some user =>
            if negb (bool_decide (User.refreshToken user = presented)) then
              (failure 401 "Invalid refresh token", users)
            else if negb (User.isActive user) then
              (failure 401 "Account is deactivated", users)
            else
              let user :=
                User.User_ (User.isActive user) (User.phoneOTP user)
                  (User.otpRequestCount user) (Some tokens.2) in
              (Response 200
                 (object [("success", Some (JBool true));
                          ("accessToken", Some (JStr tokens.1));
                          ("refreshToken", Some (JStr tokens.2))]),
               <[id := user]> users)
        end
    end.

(** [logout] for the authenticated user [id] ([req.user.id]); a user that
    is not found makes [user.refreshToken = null] throw, which the handler
    answers with 500. *)
Definition logout (id : string) (users : gmap string User.user)
    : response * gmap string User.user :=
  match users !! id with
  | None => (failure 500 "Server error during logout", users)
  | Some user =>
      let user :=
        User.User_ (User.isActive user) (User.phoneOTP user)
          (User.otpRequestCount user) None in
      (Response 200
         (object [("success", Some (JBool true));
                  ("msg", Some (JStr "Logged out successfully"))]),
       <[id := user]> users)
  end.

(** A token scheme for the samples: the token ["rt-" ++ id ++ "-" ++ n]
    (or anything else) is signed for the id given by a table. *)
Definition sampleJwt : Jwt := {|
  verify := λ token,
    if String.prefix "rt-u1-" token then Some "u1" else None
|}.

Definition sampleUsers : gmap string User.user :=
  {[ "u1" := User.User_ true (User.OtpRecord_ None None 0)
               (User.OtpRequestQuota_ 0 0) (Some "rt-u1-1") ]}.

End Session.

(** ** A series of OTP requests *)

Module Traffic.

(** Which of the two handlers that issue an OTP a request goes to. *)
Inductive route := Send | Resend.

Definition handle `{M : User.Methods} (env : environment)
    (call : route * string * Z * request) (w : world) : response * world :=
  let '(r, drawn, now, req) := call in
  match r with
  | Send => sendOTP env drawn now req w
  | Resend => resendOTP env drawn now req w
  end.

(** The requests are served one after the other. *)
Fixpoint serve `{M : User.Methods} (env : environment)
    (calls : list (route * string * Z * request)) (w : world)
    : list response * world :=
  match calls with
  | [] => ([], w)
  | call :: rest =>
      let '(answer, w') := handle env call w in
      let '(answers, final) := serve env rest w' in
      (answer :: answers, final)
  end.

(** How many answers were not "too many requests". *)
Definition passed (answers : list response) : nat :=
  length (filter (λ r, status r ≠ 429) answers).

(** A request for the phone number [p] with a clock reading in the span
    of one hour that starts at [a]. *)
Definition for_number (p : string) (a : Z)
    (call : route * string * Z * request) : Prop :=
  phoneNumber call.2 = Some p
  ∧ a <= call.1.2 <= a + RateLimiter.cleanupInterval.

(** Twelve requests for one number within twelve seconds. *)
Definition dozen : list (route * string * Z * request) :=
  (λ n : nat, (if Nat.even n then Send else Resend, "042917",
               1000 * Z.of_nat n, Sample.request_)) <$> seq 1 12.

End Traffic.

(** ** Password reset and e-mail verification *)

Module Recovery.

(** [crypto.createHash('sha256').update(token).digest('hex')]. *)
Class Crypto := {
  sha256hex : string → string
}.

(** The fields of a user document that the two handlers read or write.
    The password is the value assigned to [user.password]. *)
Record account := Account {
  password : option string;
  resetPasswordToken : option string;
  resetPasswordExpire : option Z;
  isEmailVerified : bool;
  emailVerificationToken : option string;
  emailVerificationExpire : option Z
}.

(** [handleError(error)]. *)
Definition handleError (error : Signup.dbError) : string :=
  if bool_decide (Signup.code error = Some 11000) then "Email already exists"
  else if String.eqb (Signup.name error) "ValidationError" then
    join (Signup.messages error)
  else "Server error occurred".

(** The error of [update(token)] for a token that is not there. *)
Definition invalidArgument : Signup.dbError :=
  Signup.DbError None "TypeError" [].

(** A query [{ field: hash, expire: { $gt: now } }]. *)
Definition matches (hash : string) (now : Z)
    (token : option string) (expire : option Z) : Prop :=
  token = Some hash ∧ ∃ t, expire = Some t ∧ now < t.

Global Instance matches_dec hash now token expire :
  Decision (matches hash now token expire).
Proof.
  unfold matches. destruct expire as [t|].
  - destruct (decide (token = Some hash ∧ now < t)) as [[? ?]|Hno].
    + left. eauto.
    + right. intros [? [t' [[= <-] ?]]]. tauto.
  - right. intros [_ [t' [? _]]]. done.
Defined.

(** [resetPassword], on the collection in its natural order, which is the
    order [findOne] searches in. [saveError] is the error [user.save()]
    throws, if it throws. *)
Definition resetPassword `{C : Crypto} (now : Z) (saveError : option Signup.dbError)
    (token newPassword : option string) (users : list account)
    : response * list account :=
  match token with
  | None => (failure 400 (handleError invalidArgument), users)
  | Some token =>
      let resetPasswordToken := sha256hex token in
      match list_find
              (λ u, matches resetPasswordToken now
                      (Recovery.resetPasswordToken u) (resetPasswordExpire u))
              users with
      | None => (failure 400 "Invalid or expired reset token", users)
      | Some (index, user) =>
          let user :=
            Account newPassword None None (isEmailVerified user)
                    (emailVerificationToken user)
                    (emailVerificationExpire user) in
          match saveError with
          | Some error => (failure 400 (handleError error), users)
          | None =>
              (Response 200
                 (object [("success", Some (JBool true));
                          ("msg", Some (JStr "Password reset successful"))]),
               <[index := user]> users)
          end
      end
  end.

(** [verifyEmail]; the token is a route parameter. *)
Definition verifyEmail `{C : Crypto} (now : Z) (saveError : option Signup.dbError)
    (token : string) (users : list account) : response * list account :=
  let emailVerificationToken := sha256hex token in
  match list_find
          (λ u, matches emailVerificationToken now
                  (Recovery.emailVerificationToken u)
                  (emailVerificationExpire u))
          users with
  | None => (failure 400 "Invalid or expired verification token", users)
  | Some (index, user) =>
      let user :=
        Account (password user) (resetPasswordToken user)
                (resetPasswordExpire user) true None None in
      match saveError with
      | Some error => (failure 400 (handleError error), users)
      | None =>
          (Response 200
             (object [("success", Some (JBool true));
                      ("msg", Some (JStr "Email verified successfully"))]),
           <[index := user]> users)
      end
  end.



Definition sampleUsers : list account :=
  [Account (Some "old-1") None None true None None;
   Account (Some "old-2") (Some "h:tok") (Some 5000) false
           (Some "h:mail") (Some 9000)].

End Recovery.

(** ** Login *)

Module Login.

(** The fields of a user document that [login] reads or writes. *)
Record account := Account {
  id : string;
  name : string;
  email : string;
  phoneNumber : option string;
  role : string;
  isEmailVerified : bool;
  isPhoneVerified : bool;
  isActive : bool;
  lockUntil : option Z;
  loginAttempts : Z;
  refreshToken : option string
}.

(** The [user] object of the answer 200. *)
Record publicUser := PublicUser {
  _id : string;
  publicName : string;
  publicEmail : string;
  publicPhoneNumber : option string;
  publicRole : string;
  emailVerified : bool;
  phoneVerified : bool
}.

(** The instance methods [login] calls; they live in [models/User.js] and
    are taken as they are. Each gets the clock reading it works with and
    returns the document as it has left (and stored) it; [comparePassword]
    gives [None] when it throws. *)
Class Methods := {
  isLocked : Z → account → bool;
  comparePassword : option string → account → option bool;
  handleFailedLogin : Z → account → account;
  handleSuccessfulLogin : Z → account → account
}.

(** The answer: [msg] for the failures; the user and the tokens for the
    success. *)
Record answer := Answer {
  status : Z;
  success : bool;
  msg : option string;
  user : option publicUser;
  accessToken : option string;
  newRefreshToken : option string
}.

Definition refuse (st : Z) (m : string) : answer :=
  Answer st false (Some m) None None None.

(** [`${Math.ceil((user.lockUntil - Date.now()) / 1000 / 60)}`]. *)
Definition lockTime (now : Z) (u : account) : string :=
  match lockUntil u with
  | Some t => num_to_string (ceil_div (t - now) (1000 * 60))
  | None => "NaN"
  end.

Definition setRefreshToken (token : option string) (u : account) : account :=
  Account (id u) (name u) (email u) (phoneNumber u) (role u)
          (isEmailVerified u) (isPhoneVerified u) (isActive u) (lockUntil u)
          (loginAttempts u) token.

(** [login], on the collection keyed by e-mail address; a query without
    an address is taken to match no document. [tokens] is what
    [generateTokens(user._id)] signs. *)
Definition login `{L : Methods} (now : Z) (tokens : string * string)
    (address password : option string) (users : gmap string account)
    : answer * gmap string account :=
  match address with
  | None => (refuse 401 "Invalid credentials", users)
  | Some key =>
      match users !! key with
      | None => (refuse 401 "Invalid credentials", users)
      | Some user =>
          if negb (isActive user) then
            (refuse 401 "Account is deactivated", users)
          else if isLocked now user then
            (refuse 401 ("Account is locked. Please try again in "
                         +:+ lockTime now user +:+ " minutes"),
             users)
          else
            match comparePassword password user with
            | None => (refuse 500 "Error during login", users)
            | Some false =>
                let user := handleFailedLogin now user in
                (refuse 401 ("Invalid credentials. "
                             +:+ num_to_string (5 - loginAttempts user)
                             +:+ " attempts remaining"),
                 <[key := user]> users)
            | Some true =>
                let user := handleSuccessfulLogin now user in
                let user := setRefreshToken (Some tokens.2) user in
                (Answer 200 true None
                   (Some (PublicUser (id user) (name user) (email user)
                            (phoneNumber user) (role user)
                            (isEmailVerified user) (isPhoneVerified user)))
                   (Some tokens.1) (Some tokens.2),
                 <[key := user]> users)
            end
      end
  end.

(** Methods for the samples: an account is locked while [lockUntil] lies
    ahead; the password is "secret"; a failed login counts. *)
Definition sampleMethods : Methods := {|
  isLocked := λ now u,
    match lockUntil u with
    | Some t => now <? t
    | None => false
    end;
  comparePassword := λ password _,
    match password with
    | Some p => Some (String.eqb p "secret")
    | None => None
    end;
  handleFailedLogin := λ _ u,
    Account (id u) (name u) (email u) (phoneNumber u) (role u)
            (isEmailVerified u) (isPhoneVerified u) (isActive u) (lockUntil u)
            (loginAttempts u + 1) (refreshToken u);
  handleSuccessfulLogin := λ _ u, u
|}.

End Login.

(** ** Sample submissions *)

Module SampleAttempts.

(** Three wrong codes, submitted at 2000, 3000 and 4000. *)
Definition threeWrong : list (string * Z) :=
  [("111111", 2000); ("222222", 3000); ("333333", 4000)].

(** The right code for 042917, submitted at 5000. *)
Definition fourthRight : list (string * Z) := [("042917", 5000)].

End SampleAttempts.

(** * Theorems *)

(** ** Rate limiter *)

Module RateLimiterFacts.
Import RateLimiter.

Lemma checkLimit_other p now (m : gmap string entry) k :
  template p ≠ k → (checkLimit p now m).2 !! k = m !! k.
Proof.
  intros Hne. unfold checkLimit.
  destruct (m !! template p) as [a|]; simpl.
  - destruct (cleanupInterval <? now - timestamp a); simpl.
    + by rewrite lookup_insert_ne.
    + destruct (blocked a); simpl; [done|].
      destruct (10 <? count a + 1); simpl; by rewrite lookup_insert_ne.
  - by rewrite lookup_insert_ne.
Qed.

(** A call that opens a window: no entry, or the hour has elapsed. *)
Lemma checkLimit_opens p now (m : gmap string entry) :
  window_closed (template p) now m →
  checkLimit p now m = (allow, <[template p := Entry 1 now false]> m).
Proof.
  unfold window_closed, checkLimit. intros H.
  destruct (m !! template p) as [a|]; [|done].
  apply Z.ltb_lt in H. by rewrite H.
Qed.

(** A call inside the window of an entry that has counted [c] calls. *)
Lemma checkLimit_counts p now (m : gmap string entry) c t0 :
  m !! template p = Some (Entry c t0 (10 <? c)) →
  1 <= c <= 11 →
  now - t0 <= cleanupInterval →
  let c' := Z.min (c + 1) 11 in
  allowed (checkLimit p now m).1 = (c <? 10)
  ∧ (checkLimit p now m).2 !! template p = Some (Entry c' t0 (10 <? c')).
Proof.
  intros Hm Hc Hnow. unfold checkLimit. rewrite Hm. simpl.
  assert ((cleanupInterval <? now - t0) = false) as -> by (apply Z.ltb_ge; lia).
  destruct (10 <? c) eqn:Hb; simpl.
  - apply Z.ltb_lt in Hb. assert (c = 11) as -> by lia. by rewrite Hm.
  - apply Z.ltb_ge in Hb.
    destruct (10 <? c + 1) eqn:Hb'; simpl; rewrite lookup_insert_eq.
    + apply Z.ltb_lt in Hb'. assert (c = 10) as -> by lia. done.
    + apply Z.ltb_ge in Hb'. rewrite Z.min_l by lia.
      split; [symmetry; apply Z.ltb_lt; lia|].
      do 2 f_equal. symmetry. apply Z.ltb_ge. lia.
Qed.

Lemma sweep_keeps now (m : gmap string entry) k e :
  m !! k = Some e → now - timestamp e <= cleanupInterval →
  sweep now m !! k = Some e.
Proof.
  intros Hm Hnow. unfold sweep. apply map_lookup_filter_Some. simpl.
  split; [done | lia].
Qed.

Lemma sweep_lookup now (m : gmap string entry) k e :
  sweep now m !! k = Some e → m !! k = Some e.
Proof. unfold sweep. intros H. by apply map_lookup_filter_Some in H as [? _]. Qed.

Lemma answers_for_cons_eq key r rs :
  answers_for key ((key, r) :: rs) = r :: answers_for key rs.
Proof. unfold answers_for. by rewrite filter_cons_True. Qed.

Lemma answers_for_cons_ne key k r rs :
  k ≠ key → answers_for key ((k, r) :: rs) = answers_for key rs.
Proof. intros. unfold answers_for. by rewrite filter_cons_False. Qed.

(** The answers inside an open window, for an entry that has counted [c]
    calls so far: the [i]-th further call is let through exactly when it
    is among the first ten of the window. *)
Lemma run_in_window key t0 evs :
  ∀ (m : gmap string entry) c,
    m !! key = Some (Entry c t0 (10 <? c)) →
    1 <= c <= 11 →
    Forall (in_window key t0) evs →
    ∀ i r, answers_for key (run evs m).1 !! i = Some r →
           allowed r = bool_decide (c + Z.of_nat i < 10).
Proof.
  induction evs as [|e evs IH]; intros m c Hm Hc Hall i r Hi.
  - done.
  - apply Forall_cons in Hall as [He Hall].
    destruct e as [p now| now |]; simpl in *.
    + destruct (checkLimit p now m) as [r0 m'] eqn:Hcl.
      destruct (run evs m') as [rs final] eqn:Hrun. simpl in *.
      destruct (decide (template p = key)) as [<-|Hne].
      * destruct (checkLimit_counts p now m c t0 Hm Hc (He eq_refl))
          as [Hr0 Hm'].
        rewrite Hcl in Hr0, Hm'. simpl in *.
        rewrite answers_for_cons_eq in Hi.
        destruct i as [|i]; simpl in Hi.
        -- injection Hi as <-. rewrite Hr0.
           destruct (Z.ltb_spec c 10);
             [by rewrite bool_decide_eq_true_2 by lia
             |by rewrite bool_decide_eq_false_2 by lia].
        -- assert (Hrs : answers_for (template p) (run evs m').1 !! i = Some r)
             by (by rewrite Hrun).
           rewrite (IH m' _ Hm' ltac:(lia) Hall i r Hrs).
           apply bool_decide_ext. lia.
      * rewrite answers_for_cons_ne in Hi by done.
        assert (Hm' : m' !! key = Some (Entry c t0 (10 <? c))).
        { rewrite <- Hm. replace m' with (checkLimit p now m).2 by (by rewrite Hcl).
          by apply checkLimit_other. }
        eapply (IH m' c Hm' Hc Hall). by rewrite Hrun.
    + eapply (IH (sweep now m) c); [|done|done|done].
      by apply sweep_keeps.
    + done.
Qed.

Lemma checkLimit_blocked p now (m : gmap string entry) attempt :
  m !! template p = Some attempt →
  blocked attempt = true →
  now - timestamp attempt <= cleanupInterval →
  allowed (checkLimit p now m).1 = false ∧ (checkLimit p now m).2 = m.
Proof.
  intros Hm Hb Hnow. unfold checkLimit. rewrite Hm. simpl.
  assert ((cleanupInterval <? now - timestamp attempt) = false) as ->
    by (apply Z.ltb_ge; lia).
  by rewrite Hb.
Qed.

Lemma checkLimit_entry_ok p now (m : gmap string entry) :
  map_Forall (λ _ e, entry_ok e) m →
  map_Forall (λ _ e, entry_ok e) (checkLimit p now m).2.
Proof.
  intros Hm. unfold checkLimit.
  assert (Hnew : entry_ok (Entry 1 now false)).
  { unfold entry_ok. simpl. split; [lia|]. split; [done | lia]. }
  destruct (m !! template p) as [a|] eqn:Ha; simpl.
  - pose proof (Hm _ _ Ha) as [Hc Hb].
    destruct (cleanupInterval <? now - timestamp a); simpl.
    + by apply map_Forall_insert_2.
    + destruct (blocked a) eqn:Hba; simpl; [done|].
      assert (count a ≠ 11) by (intros Heq; apply Hb in Heq; done).
      destruct (10 <? count a + 1) eqn:Hlt; simpl;
        apply map_Forall_insert_2; try done; unfold entry_ok; simpl.
      * apply Z.ltb_lt in Hlt. split; [lia|]. split; [lia | done].
      * apply Z.ltb_ge in Hlt. split; [lia|]. split; [done | lia].
  - by apply map_Forall_insert_2.
Qed.

Lemma run_entry_ok evs :
  ∀ m : gmap string entry,
    map_Forall (λ _ e, entry_ok e) m →
    map_Forall (λ _ e, entry_ok e) (run evs m).2.
Proof.
  induction evs as [|e evs IH]; intros m Hm; [done|].
  destruct e as [p now| now |]; simpl.
  - pose proof (checkLimit_entry_ok p now m Hm) as Hstep.
    destruct (checkLimit p now m) as [r0 m'].
    specialize (IH m' Hstep).
    by destruct (run evs m') as [rs final].
  - apply IH. intros k e He. apply sweep_lookup in He. by eapply Hm.
  - apply IH. unfold cleanup. apply map_Forall_empty.
Qed.

(** C1. For every phone number: of the calls of a run that stay inside
    the one-hour window opened by a first call (no entry yet, or the hour
    of the old one elapsed), the first ten are allowed and the eleventh
    and every later one are not; calls for other numbers and ticks of
    the cleanup timer in between change nothing. And a call made more
    than one hour after the window start of an entry is allowed and
    resets the entry to count 1, not blocked, window start now. *)
Theorem checkLimit_first_ten (p : option string) (t0 : Z)
    (attempts : gmap string entry) (rest : list event) :
  window_closed (template p) t0 attempts →
  Forall (in_window (template p) t0) rest →
  (∀ i r,
     answers_for (template p) (run (Call p t0 :: rest) attempts).1 !! i
       = Some r →
     allowed r = bool_decide (i < 10)%nat)
  ∧ (∀ now (m : gmap string entry) attempt,
       m !! template p = Some attempt →
       cleanupInterval < now - timestamp attempt →
       checkLimit p now m
         = (allow, <[template p := Entry 1 now false]> m)).
Proof.
  intros Hclosed Hrest. split.
  - intros i r. simpl. rewrite (checkLimit_opens _ _ _ Hclosed).
    destruct (run rest _) as [rs final] eqn:Hrun. simpl.
    rewrite answers_for_cons_eq.
    destruct i as [|i]; simpl; intros Hi.
    + by injection Hi as <-.
    + assert (Hrs : answers_for (template p)
                      (run rest (<[template p := Entry 1 t0 false]> attempts)).1
                      !! i = Some r) by (by rewrite Hrun).
      rewrite (run_in_window _ t0 rest _ 1 (lookup_insert_eq _ _ _)
                 ltac:(lia) Hrest i r Hrs).
      apply bool_decide_ext. lia.
  - intros now m attempt Hm Hlate. apply checkLimit_opens.
    unfold window_closed. by rewrite Hm.
Qed.

(** C9. In every state the limiter reaches from the empty map, by calls,
    timer ticks and signals in any order, every stored entry has
    1 <= count <= 11, and it is blocked exactly when count is 11. A call
    inside the window of a blocked entry is not allowed and leaves the
    whole map, the count included, as it was. A call that creates an
    entry or resets an elapsed one leaves count 1 and blocked false. *)
Theorem entry_count_invariant :
  (∀ evs k e,
     (run evs ∅).2 !! k = Some e →
     count e <= 11 ∧ 1 <= count e ∧ (blocked e = true ↔ count e = 11))
  ∧ (∀ p now (m : gmap string entry) attempt,
       m !! template p = Some attempt →
       blocked attempt = true →
       now - timestamp attempt <= cleanupInterval →
       allowed (checkLimit p now m).1 = false ∧ (checkLimit p now m).2 = m)
  ∧ (∀ p now (m : gmap string entry),
       window_closed (template p) now m →
       (checkLimit p now m).2 !! template p = Some (Entry 1 now false)).
Proof.
  split; [|split].
  - intros evs k e He.
    destruct (run_entry_ok evs ∅ (map_Forall_empty _) k e He) as [Hc Hb].
    split; [lia|]. split; [lia | done].
  - apply checkLimit_blocked.
  - intros p now m Hclosed. rewrite (checkLimit_opens _ _ _ Hclosed).
    apply lookup_insert_eq.
Qed.

(** The run of the sample: twelve calls for the number within eleven
    seconds. *)
Example burst_answers :
  allowed <$> answers_for Sample.phone
                (run (Call (Some Sample.phone) 0 :: Sample.burst) ∅).1
  = [true; true; true; true; true; true; true; true; true; true;
     false; false].
Proof. vm_compute. reflexivity. Qed.

Lemma checkLimit_first_ten_witness :
  window_closed "+15551234567" 0 ∅
  ∧ Forall (in_window "+15551234567" 0) Sample.burst
  ∧ ∀ i r,
      answers_for "+15551234567"
        (run (Call (Some "+15551234567") 0 :: Sample.burst) ∅).1 !! i = Some r →
      allowed r = bool_decide (i < 10)%nat.
Proof.
  assert (Hclosed : window_closed "+15551234567" 0 ∅) by exact I.
  assert (Hburst : Forall (in_window "+15551234567" 0) Sample.burst).
  { unfold Sample.burst.
    repeat constructor; simpl; intros; unfold cleanupInterval; lia. }
  split; [exact Hclosed|]. split; [exact Hburst|].
  exact (proj1 (checkLimit_first_ten (Some "+15551234567") 0 ∅ Sample.burst
                  Hclosed Hburst)).
Defined.

End RateLimiterFacts.

(** ** Phone-number validation *)

Section Validation.

Lemma isPlus_eq c : isPlus c = true → c = "+"%char.
Proof. apply Ascii.eqb_eq. Qed.

Lemma isPlus_not_digit c : isPlus c = true → isDigit c = false.
Proof. intros ->%isPlus_eq. reflexivity. Qed.

Lemma isDigit_not_plus c : isDigit c = true → isPlus c = false.
Proof.
  intros Hd. destruct (isPlus c) eqn:Hp; [|done].
  apply isPlus_not_digit in Hp. congruence.
Qed.

Lemma isNonZeroDigit_isDigit c : isNonZeroDigit c = true → isDigit c = true.
Proof.
  unfold isNonZeroDigit, isDigit. intros [H1 H2]%andb_true_iff.
  apply N.leb_le in H1. apply andb_true_iff. split; [|done].
  apply N.leb_le. lia.
Qed.

Lemma allDigits_digitsOnly s : allDigits (digitsOnly s) = true.
Proof.
  induction s as [|c s IH]; [done|]. simpl.
  destruct (isDigit c) eqn:Hc; [|done]. simpl. by rewrite Hc.
Qed.

Lemma digitsOnly_id s : allDigits s = true → digitsOnly s = s.
Proof.
  induction s as [|c s IH]; [done|]. simpl.
  intros [Hc Hs]%andb_true_iff. rewrite Hc. by rewrite IH.
Qed.

Lemma digitsOnly_idemp s : digitsOnly (digitsOnly s) = digitsOnly s.
Proof. apply digitsOnly_id, allDigits_digitsOnly. Qed.

Lemma hasPlus_digitsOnly s : hasPlus (digitsOnly s) = false.
Proof.
  pose proof (allDigits_digitsOnly s) as H.
  destruct (digitsOnly s) as [|c r]; [done|]. simpl in *.
  apply andb_true_iff in H as [Hc _]. by apply isDigit_not_plus.
Qed.

(** What cleaning leaves: the ['+'] of index 0 if there is one, and the
    digits. *)
Lemma cleanPhoneNumber_shape p :
  cleanPhoneNumber p
  = if hasPlus p then String "+" (digitsOnly p) else digitsOnly p.
Proof.
  destruct p as [|c r]; [done|]. simpl.
  destruct (isPlus c) eqn:Hp; [|done].
  rewrite (isPlus_not_digit _ Hp). by rewrite (isPlus_eq _ Hp).
Qed.

Lemma hasPlus_clean p : hasPlus (cleanPhoneNumber p) = hasPlus p.
Proof.
  rewrite cleanPhoneNumber_shape.
  destruct (hasPlus p) eqn:Hp; [done|]. apply hasPlus_digitsOnly.
Qed.

Lemma digitsOnly_clean p : digitsOnly (cleanPhoneNumber p) = digitsOnly p.
Proof.
  rewrite cleanPhoneNumber_shape.
  destruct (hasPlus p); simpl; apply digitsOnly_idemp.
Qed.

Lemma stripPlus_clean p : stripPlus (cleanPhoneNumber p) = digitsOnly p.
Proof.
  rewrite cleanPhoneNumber_shape.
  destruct (hasPlus p); [done|].
  pose proof (hasPlus_digitsOnly p) as H.
  destruct (digitsOnly p) as [|c r]; [done|]. simpl in *. by rewrite H.
Qed.

Lemma digitCount_clean p : digitCount (cleanPhoneNumber p) = digitCount p.
Proof. unfold digitCount. by rewrite digitsOnly_clean. Qed.

Lemma leadingNonZero_clean p :
  leadingNonZero (cleanPhoneNumber p) = leadingNonZero p.
Proof. unfold leadingNonZero. by rewrite digitsOnly_clean. Qed.

Lemma length_clean p :
  String.length (cleanPhoneNumber p)
  = (digitCount p + if hasPlus p then 1 else 0)%nat.
Proof.
  rewrite cleanPhoneNumber_shape. unfold digitCount.
  destruct (hasPlus p); simpl; lia.
Qed.

(** The regular expression on a cleaned number, in terms of its digits. *)
Lemma matchesInternational_clean p :
  matchesInternational (cleanPhoneNumber p) = true
  ↔ leadingNonZero p = true ∧ (2 <= digitCount p <= 15)%nat.
Proof.
  unfold matchesInternational, leadingNonZero, digitCount.
  rewrite stripPlus_clean.
  pose proof (allDigits_digitsOnly p) as Hall.
  destruct (digitsOnly p) as [|c r]; cbn [allDigits String.length] in *.
  - split; [done | intros [? _]; done].
  - apply andb_true_iff in Hall as [_ ->].
    rewrite andb_true_r, !andb_true_iff, !Nat.leb_le. intuition lia.
Qed.

(** What the code accepts, exactly: the length test counts the ['+']. *)
Lemma validatePhoneNumber_returned p :
  returned (validatePhoneNumber p) = true
  ↔ leadingNonZero p = true
    ∧ (8 <= digitCount p + (if hasPlus p then 1 else 0) <= 15)%nat.
Proof.
  unfold validatePhoneNumber.
  pose proof (matchesInternational_clean p) as Hre.
  pose proof (length_clean p) as Hlen.
  destruct (matchesInternational (cleanPhoneNumber p)); simpl.
  - destruct Hre as [Hre _]. specialize (Hre eq_refl) as [Hnz Hdc].
    rewrite Hlen.
    destruct (Nat.ltb_spec (digitCount p + if hasPlus p then 1 else 0) 8);
      simpl; [split; [done | lia]|].
    destruct (Nat.ltb_spec 15 (digitCount p + if hasPlus p then 1 else 0));
      simpl; [split; [done | lia]|].
    split; [intros _; split; [done | lia] | done].
  - split; [done|]. intros [Hnz Hdc]. destruct Hre as [_ Hre].
    enough (false = true) by done. apply Hre. split; [done|].
    destruct (hasPlus p); lia.
Qed.

Lemma validatePhoneNumber_result p r :
  validatePhoneNumber p = Return r →
  r = cleanPhoneNumber p ∧ matchesInternational r = true.
Proof.
  unfold validatePhoneNumber.
  destruct (matchesInternational (cleanPhoneNumber p)) eqn:Hre; simpl; [|done].
  destruct (_ <? 8)%nat; [done|]. destruct (15 <? _)%nat; [done|].
  by intros [= <-].
Qed.

(** A string of the accepted shape is left alone by the cleaning. *)
Lemma cleanPhoneNumber_id s :
  matchesInternational s = true → cleanPhoneNumber s = s.
Proof.
  unfold matchesInternational. destruct s as [|c r]; [done|]. simpl.
  destruct (isPlus c) eqn:Hp.
  - destruct r as [|d r']; [done|].
    intros [[[Hd Hr]%andb_true_iff _]%andb_true_iff _]%andb_true_iff.
    f_equal. apply digitsOnly_id. simpl.
    by rewrite (isNonZeroDigit_isDigit _ Hd), Hr.
  - intros [[[Hd Hr]%andb_true_iff _]%andb_true_iff _]%andb_true_iff.
    rewrite (isNonZeroDigit_isDigit _ Hd). f_equal. by apply digitsOnly_id.
Qed.

End Validation.

(** C4, as the code has it. A number is accepted only with its cleaned form
    as the result, which is an optional leading ['+'], a first digit 1-9
    and digits only. Without a leading ['+'] it is accepted exactly when
    its first digit is 1-9 and it has 8 to 15 digits. With a leading ['+'],
    a first digit 1-9 and 8 to 14 digits it is accepted. A first digit 0,
    fewer than 7 or more than 15 digits are rejected, by a thrown error;
    the function has no state to touch. *)
Theorem validatePhoneNumber_accepts (p : string) :
  (∀ r, validatePhoneNumber p = Return r →
        r = cleanPhoneNumber p
        ∧ plusThenDigits r = true ∧ leadingNonZero r = true)
  ∧ (hasPlus (cleanPhoneNumber p) = false →
     (returned (validatePhoneNumber p) = true
      ↔ leadingNonZero (cleanPhoneNumber p) = true
        ∧ (8 <= digitCount (cleanPhoneNumber p) <= 15)%nat))
  ∧ (hasPlus (cleanPhoneNumber p) = true →
     leadingNonZero (cleanPhoneNumber p) = true →
     (8 <= digitCount (cleanPhoneNumber p) <= 14)%nat →
     returned (validatePhoneNumber p) = true)
  ∧ (leadingNonZero (cleanPhoneNumber p) = false
     ∨ (digitCount (cleanPhoneNumber p) < 7)%nat
     ∨ (15 < digitCount (cleanPhoneNumber p))%nat →
     ∃ m, validatePhoneNumber p = Throw m).
Proof.
  rewrite hasPlus_clean, leadingNonZero_clean, digitCount_clean.
  pose proof (validatePhoneNumber_returned p) as Hacc.
  split; [|split; [|split]].
  - intros r Hr. destruct (validatePhoneNumber_result p r Hr) as [-> _].
    split; [done|]. unfold plusThenDigits.
    rewrite stripPlus_clean, leadingNonZero_clean. split.
    + apply allDigits_digitsOnly.
    + apply Hacc. by rewrite Hr.
  - intros Hplus. rewrite Hplus in Hacc. rewrite Hacc. intuition lia.
  - intros Hplus Hnz Hdc. apply Hacc. rewrite Hplus. split; [done | lia].
  - intros Hbad. destruct (validatePhoneNumber p) as [r|m]; [|by exists m].
    destruct Hacc as [Hacc _]. specialize (Hacc eq_refl) as [Hnz Hdc].
    destruct (hasPlus p); destruct Hbad as [?|[?|?]]; (congruence || lia).
Qed.

(** C4, as the claim words it, fails: [01234567] cleans to eight digits and
    is rejected for its leading zero. *)
Lemma validatePhoneNumber_leading_zero_rejected :
  ¬ accepted_iff_8_to_15_digits "01234567".
Proof.
  unfold accepted_iff_8_to_15_digits. intros [_ H].
  assert (Hfalse : returned (validatePhoneNumber "01234567") = true).
  { apply H. split; [reflexivity | vm_compute; lia]. }
  vm_compute in Hfalse. discriminate.
Qed.

(** The ['+'] counts in the length test: seven digits pass behind a ['+'],
    fifteen do not. *)
Example validatePhoneNumber_plus_counts :
  validatePhoneNumber "+1234567" = Return "+1234567"
  ∧ validatePhoneNumber "+123456789012345"
    = Throw "Phone number too long. Maximum 15 digits allowed."
  ∧ validatePhoneNumber "123456789012345" = Return "123456789012345".
Proof. repeat split; reflexivity. Qed.

(** C10. An accepted phone number is cleaned to a number that is accepted
    again and returned as it is. *)
Theorem validatePhoneNumber_idempotent (p c : string) :
  validatePhoneNumber p = Return c → validatePhoneNumber c = Return c.
Proof.
  intros Hp. destruct (validatePhoneNumber_result p c Hp) as [-> Hre].
  unfold validatePhoneNumber in *.
  by rewrite (cleanPhoneNumber_id _ Hre).
Qed.

Lemma validatePhoneNumber_idempotent_witness :
  validatePhoneNumber "+1 (555) 123-4567" = Return "+15551234567"
  ∧ validatePhoneNumber "+15551234567" = Return "+15551234567".
Proof.
  assert (H : validatePhoneNumber "+1 (555) 123-4567" = Return "+15551234567")
    by reflexivity.
  split; [exact H|].
  exact (validatePhoneNumber_idempotent "+1 (555) 123-4567" "+15551234567" H).
Defined.

(** ** Verification lockout *)

Section Lockout.

Local Existing Instance User.specMethods.

(** A document on which no verification can succeed any more: the code
    is gone, or three attempts have been counted. *)
Lemma specVerifyOtp_dead submitted now u :
  User.code (User.phoneOTP u) = None ∨ 3 <= User.attempts (User.phoneOTP u) →
  User.specVerifyOtp submitted now u
  = ((User.specVerifyOtp submitted now u).1, u)
  ∧ User.isValid (User.specVerifyOtp submitted now u).1 = false.
Proof.
  intros Hdead. unfold User.specVerifyOtp.
  destruct (User.code (User.phoneOTP u)) as [stored|]; [|done].
  destruct Hdead as [Hdead|Hlock]; [done|].
  destruct (match User.expiresAt (User.phoneOTP u) with
            | Some t => t <=? now
            | None => true
            end); [done|].
  apply Z.leb_le in Hlock. by rewrite Hlock.
Qed.

Lemma verifyAll_dead submissions u :
  User.code (User.phoneOTP u) = None ∨ 3 <= User.attempts (User.phoneOTP u) →
  Forall (λ v, User.isValid v = false) (User.verifyAll submissions u).1
  ∧ (User.verifyAll submissions u).2 = u.
Proof.
  intros Hdead.
  induction submissions as [|[submitted now] rest [IHv IHu]]; simpl; [done|].
  destruct (specVerifyOtp_dead submitted now u Hdead) as [Hsame Hinvalid].
  rewrite Hsame. destruct (User.verifyAll rest u) as [vs final].
  simpl in *. split; [by constructor | done].
Qed.

(** The document holds the code [c], which expires at [e], with [k]
    attempts counted. *)
Lemma specVerifyOtp_live c e k submitted now u :
  User.phoneOTP u = User.OtpRecord_ (Some c) (Some e) k →
  k < 3 →
  User.specVerifyOtp submitted now u
  = if e <=? now then
      (User.Verification false "OTP has expired", u)
    else if String.eqb submitted c then
      (User.Verification true "OTP verified successfully",
       User.setPhoneOTP (User.OtpRecord_ None None (k + 1)) u)
    else
      (User.Verification false "Incorrect OTP",
       User.setPhoneOTP (User.OtpRecord_ (Some c) (Some e) (k + 1)) u).
Proof.
  intros Hotp Hk. unfold User.specVerifyOtp. rewrite Hotp. simpl.
  destruct (e <=? now); [done|].
  assert ((3 <=? k) = false) as -> by (apply Z.leb_gt; lia). done.
Qed.

(** Every submission made before the expiry is an attempt: once three of
    them have been made against a code, the code is gone (one of them
    was right) or three attempts are counted. *)
Lemma verifyAll_exhausts c e submissions :
  ∀ u k,
    User.phoneOTP u = User.OtpRecord_ (Some c) (Some e) k →
    3 - k <= Z.of_nat (length (filter (λ s, s.2 < e) submissions)) →
    User.code (User.phoneOTP (User.verifyAll submissions u).2) = None
    ∨ 3 <= User.attempts (User.phoneOTP (User.verifyAll submissions u).2).
Proof.
  induction submissions as [|[submitted now] rest IH]; intros u k Hotp Hcount.
  - right. simpl in *. rewrite Hotp. simpl. lia.
  - destruct (Z.lt_ge_cases k 3) as [Hk|Hk].
    + simpl. rewrite (specVerifyOtp_live c e k submitted now u Hotp Hk).
      destruct (Z.leb_spec e now) as [Hexpired|Hintime].
      * rewrite filter_cons_False in Hcount by (simpl; lia).
        specialize (IH u k Hotp Hcount).
        by destruct (User.verifyAll rest u) as [vs final].
      * rewrite filter_cons_True in Hcount by (simpl; lia).
        simpl in Hcount.
        destruct (String.eqb submitted c).
        -- pose proof (verifyAll_dead rest
                         (User.setPhoneOTP (User.OtpRecord_ None None (k + 1)) u)
                         (or_introl eq_refl)) as [_ Hsame].
           destruct (User.verifyAll rest _) as [vs final].
           simpl in *. subst final. by left.
        -- specialize (IH (User.setPhoneOTP
                             (User.OtpRecord_ (Some c) (Some e) (k + 1)) u)
                          (k + 1) eq_refl ltac:(lia)).
           by destruct (User.verifyAll rest _) as [vs final].
    + assert (Hdead : User.code (User.phoneOTP u) = None
                      ∨ 3 <= User.attempts (User.phoneOTP u))
        by (right; rewrite Hotp; simpl; lia).
      destruct (verifyAll_dead ((submitted, now) :: rest) u Hdead) as [_ ->].
      done.
Qed.

(** Wrong codes leave the code where it is and are counted, up to
    three. *)
Lemma verifyAll_wrong c e submissions :
  ∀ u k,
    User.phoneOTP u = User.OtpRecord_ (Some c) (Some e) k →
    0 <= k <= 3 →
    Forall (λ s, s.1 ≠ c) submissions →
    Forall (λ v, User.isValid v = false) (User.verifyAll submissions u).1
    ∧ User.phoneOTP (User.verifyAll submissions u).2
      = User.OtpRecord_ (Some c) (Some e)
          (Z.min 3 (k + Z.of_nat (length (filter (λ s, s.2 < e) submissions)))).
Proof.
  induction submissions as [|[submitted now] rest IH]; intros u k Hotp Hk Hwrong.
  - simpl. split; [done|]. rewrite Hotp. f_equal. lia.
  - apply Forall_cons in Hwrong as [Hs Hwrong]. simpl in Hs.
    destruct (Z.lt_ge_cases k 3) as [Hlt|Hge].
    + simpl. rewrite (specVerifyOtp_live c e k submitted now u Hotp Hlt).
      destruct (Z.leb_spec e now) as [Hexpired|Hintime].
      * rewrite filter_cons_False by (simpl; lia).
        destruct (IH u k Hotp Hk Hwrong) as [IHv IHu].
        destruct (User.verifyAll rest u) as [vs final].
        simpl in *. split; [by constructor | done].
      * rewrite filter_cons_True by (simpl; lia).
        assert (String.eqb submitted c = false) as ->
          by (by apply String.eqb_neq).
        destruct (IH (User.setPhoneOTP
                        (User.OtpRecord_ (Some c) (Some e) (k + 1)) u)
                     (k + 1) eq_refl ltac:(lia) Hwrong) as [IHv IHu].
        destruct (User.verifyAll rest _) as [vs final].
        simpl in *. split; [by constructor|]. rewrite IHu. f_equal. lia.
    + assert (Hdead : User.code (User.phoneOTP u) = None
                      ∨ 3 <= User.attempts (User.phoneOTP u))
        by (right; rewrite Hotp; simpl; lia).
      destruct (verifyAll_dead ((submitted, now) :: rest) u Hdead)
        as [Hinvalid ->].
      split; [done|]. rewrite Hotp. f_equal. lia.
Qed.

(** The handler on an account whose stored document is exhausted: it
    answers success false and writes nothing. *)
Lemma verifyOTP_exhausted_account tokens now req w key u :
  findOne (phoneNumber req) (users w) = Some (key, u) →
  User.code (User.phoneOTP u) = None ∨ 3 <= User.attempts (User.phoneOTP u) →
  field "success" (body (verifyOTP tokens now req w).1) = Some (JBool false)
  ∧ (verifyOTP tokens now req w).2 = w.
Proof.
  intros Hfind Hdead. unfold verifyOTP.
  destruct (falsy (phoneNumber req) || falsy (otp req)); [done|].
  destruct (matchesSixDigits (template (otp req))); simpl; [|done].
  rewrite Hfind. destruct (User.isActive u); simpl; [|done].
  destruct (specVerifyOtp_dead (template (otp req)) now u Hdead)
    as [Hstay Hinvalid].
  rewrite Hstay, Hinvalid. done.
Qed.

(** C2. A code is generated for a user; submissions follow, of which
    three or more are made before the code expires - these are the
    attempts. Then every further verification of the document, whatever
    is submitted and whenever, the right code included, answers
    isValid = false and leaves the document as it was. When the attempts
    were all wrong codes, each of them was answered isValid = false, the
    code is still stored and exactly three attempts are counted. A newly
    generated code verifies again while it has not expired. *)
Theorem verifyOtp_lockout (u : User.user) (drawn : string) (now : Z)
    (attempts later : list (string * Z)) :
  (3 <= length (filter (λ s : string * Z, (s.2 < now + 60 * 1000)%Z)
                  attempts))%nat →
  Forall (λ v, User.isValid v = false)
    (User.verifyAll later
       (User.verifyAll attempts (User.generateOTP drawn now u).2).2).1
  ∧ (User.verifyAll later
       (User.verifyAll attempts (User.generateOTP drawn now u).2).2).2
    = (User.verifyAll attempts (User.generateOTP drawn now u).2).2
  ∧ (Forall (λ s, s.1 ≠ drawn) attempts →
     Forall (λ v, User.isValid v = false)
       (User.verifyAll attempts (User.generateOTP drawn now u).2).1
     ∧ User.phoneOTP
         (User.verifyAll attempts (User.generateOTP drawn now u).2).2
       = User.OtpRecord_ (Some drawn) (Some (now + 60 * 1000)) 3)
  ∧ (∀ drawn' now' t,
       now' <= t < now' + 60 * 1000 →
       User.isValid
         (User.verifyOTP drawn' t
            (User.generateOTP drawn' now'
               (User.verifyAll attempts
                  (User.generateOTP drawn now u).2).2).2).1 = true).
Proof.
  intros Hthree. simpl.
  assert (Hissued : User.phoneOTP (User.specGenerateOtp drawn now u).2
                    = User.OtpRecord_ (Some drawn) (Some (now + 60 * 1000)) 0)
    by done.
  pose proof (verifyAll_exhausts drawn (now + 60 * 1000) attempts _ 0 Hissued
                ltac:(lia)) as Hdead.
  destruct (verifyAll_dead later _ Hdead) as [Hall Hsame].
  split; [done|]. split; [done|]. split.
  - intros Hwrong.
    destruct (verifyAll_wrong drawn (now + 60 * 1000) attempts _ 0 Hissued
                ltac:(lia) Hwrong) as [Hinvalid Hotp].
    split; [done|]. etrans; [exact Hotp|]. f_equal. lia.
  - intros drawn' now' t Ht.
    unfold User.specVerifyOtp, User.specGenerateOtp. simpl.
    assert ((now' + 60 * 1000 <=? t) = false) as -> by (apply Z.leb_gt; lia).
    simpl. by rewrite String.eqb_refl.
Qed.

(** Three wrong codes against the code 042917 of [alice], each in time;
    the fourth submission is the right code, in time, and fails. *)
Lemma verifyOtp_lockout_witness :
  (3 <= length (filter (λ s : string * Z, (s.2 < 1000 + 60 * 1000)%Z)
                  SampleAttempts.threeWrong))%nat
  ∧ Forall (λ v, User.isValid v = false)
      (User.verifyAll SampleAttempts.fourthRight
         (User.verifyAll SampleAttempts.threeWrong
            (User.generateOTP "042917" 1000 Sample.alice).2).2).1
  ∧ User.phoneOTP
      (User.verifyAll SampleAttempts.threeWrong
         (User.generateOTP "042917" 1000 Sample.alice).2).2
    = User.OtpRecord_ (Some "042917") (Some 61000) 3.
Proof.
  assert (Hthree :
    (3 <= length (filter (λ s : string * Z, (s.2 < 1000 + 60 * 1000)%Z)
                    SampleAttempts.threeWrong))%nat)
    by (vm_compute; lia).
  assert (Hwrong : Forall (λ s : string * Z, s.1 ≠ "042917")
                     SampleAttempts.threeWrong)
    by (repeat constructor; discriminate).
  split; [exact Hthree|].
  pose proof (verifyOtp_lockout Sample.alice "042917" 1000
                SampleAttempts.threeWrong SampleAttempts.fourthRight Hthree)
    as [Hall [_ [Hlock _]]].
  split; [exact Hall|].
  exact (proj2 (Hlock Hwrong)).
Defined.

End Lockout.

(** ** The handlers *)

Section HandlerFacts.

Context `{M : User.Methods}.

(** C5. A verify request whose otp is not six digits (an absent otp
    included) is answered 400 with success false, and the state of the
    server - no user, no attempt counter - is changed. *)
Theorem verifyOTP_malformed_otp (tokens : string * string) (now : Z)
    (req : request) (w : world) :
  matchesSixDigits (template (otp req)) = false →
  status (verifyOTP tokens now req w).1 = 400
  ∧ field "success" (body (verifyOTP tokens now req w).1)
    = Some (JBool false)
  ∧ (verifyOTP tokens now req w).2 = w.
Proof.
  intros Hotp. unfold verifyOTP.
  destruct (falsy (phoneNumber req) || falsy (otp req)); [done|].
  by rewrite Hotp.
Qed.

(** C6, as the code has it. A resend request for a user whose previous
    OTP has not expired is answered 429, and the user collection is left
    as it was: no OTP is generated, no quota charged; only the limiter
    has counted the request. When the limiter lets the request through,
    [retryAfter] is the existing [expiresAt]; when it does not,
    [retryAfter] is the limiter's. *)
Theorem resendOTP_pending (env : environment) (drawn : string) (now : Z)
    (req : request) (w : world) (key : string) (user : User.user) (t : Z) :
  findOne (phoneNumber req) (users w) = Some (key, user) →
  User.expiresAt (User.phoneOTP user) = Some t →
  now < t →
  status (resendOTP env drawn now req w).1 = 429
  ∧ users (resendOTP env drawn now req w).2 = users w
  ∧ limiter (resendOTP env drawn now req w).2
    = (RateLimiter.checkLimit (phoneNumber req) now (limiter w)).2
  ∧ field "retryAfter" (body (resendOTP env drawn now req w).1)
    = if RateLimiter.allowed
           (RateLimiter.checkLimit (phoneNumber req) now (limiter w)).1
      then Some (JDate t)
      else JDate <$> RateLimiter.retryAfter
             (RateLimiter.checkLimit (phoneNumber req) now (limiter w)).1.
Proof.
  intros Hfind Ht Hnow. unfold resendOTP.
  destruct (RateLimiter.checkLimit (phoneNumber req) now (limiter w))
    as [r limiter']. simpl.
  destruct (RateLimiter.allowed r) eqn:Hr; simpl.
  - rewrite Hfind. unfold pendingExpiry. rewrite Ht.
    assert ((now <? t) = true) as -> by (apply Z.ltb_lt; lia).
    repeat split; reflexivity.
  - repeat split; try done.
    unfold rateLimited, object. simpl.
    destruct (RateLimiter.message r), (RateLimiter.retryAfter r); done.
Qed.

End HandlerFacts.

Lemma verifyOTP_malformed_otp_witness :
  matchesSixDigits "12345" = false
  ∧ status (verifyOTP (M := User.specMethods) ("access", "refresh") 2000
              (Request (Some Sample.phone) (Some "12345"))
              (Sample.world_ Sample.waitingAlice)).1 = 400
  ∧ (verifyOTP (M := User.specMethods) ("access", "refresh") 2000
       (Request (Some Sample.phone) (Some "12345"))
       (Sample.world_ Sample.waitingAlice)).2
    = Sample.world_ Sample.waitingAlice.
Proof.
  assert (H : matchesSixDigits (template (Some "12345")) = false) by reflexivity.
  split; [exact H|].
  pose proof (verifyOTP_malformed_otp (M := User.specMethods)
                ("access", "refresh") 2000
                (Request (Some Sample.phone) (Some "12345"))
                (Sample.world_ Sample.waitingAlice) H) as [Hs [_ Hw]].
  split; [exact Hs | exact Hw].
Defined.

Lemma resendOTP_pending_witness :
  status (resendOTP (M := User.specMethods) Sample.production "123456" 2000
            Sample.request_ (Sample.world_ Sample.waitingAlice)).1 = 429
  ∧ field "retryAfter"
      (body (resendOTP (M := User.specMethods) Sample.production "123456" 2000
               Sample.request_ (Sample.world_ Sample.waitingAlice)).1)
    = Some (JDate 61000).
Proof.
  assert (Hfind : findOne (phoneNumber Sample.request_)
                    (users (Sample.world_ Sample.waitingAlice))
                  = Some (Sample.phone, Sample.waitingAlice)) by reflexivity.
  assert (Ht : User.expiresAt (User.phoneOTP Sample.waitingAlice) = Some 61000)
    by reflexivity.
  assert (Hnow : 2000 < 61000) by lia.
  pose proof (resendOTP_pending (M := User.specMethods) Sample.production
                "123456" 2000 Sample.request_
                (Sample.world_ Sample.waitingAlice)
                Sample.phone Sample.waitingAlice 61000 Hfind Ht Hnow)
    as [Hs [_ [_ Hr]]].
  split; [exact Hs | exact Hr].
Defined.

(** C6, as the claim words it, fails: the limiter is asked first, and for
    a number it has blocked the 429 carries the limiter's [retryAfter]
    (the end of its hour, 3601000) and not the expiry of the OTP (61000). *)
Lemma resendOTP_rate_limited_retryAfter :
  ¬ resend_echoes_expiry (M := User.specMethods) Sample.production "123456"
      2000 Sample.request_ (Sample.blockedWorld Sample.waitingAlice).
Proof.
  intros H.
  destruct (H Sample.phone Sample.waitingAlice 61000
              eq_refl eq_refl ltac:(lia)) as [_ [Hr _]].
  vm_compute in Hr. discriminate.
Qed.

Section Delivery.

Context `{M : User.Methods}.
Variable env : environment.

(** The text of the message is not looked at. *)
Lemma sendSMS_text p text text' : sendSMS env p text = sendSMS env p text'.
Proof. reflexivity. Qed.

Lemma revertOTP_fields u :
  User.code (User.phoneOTP (revertOTP u)) = None
  ∧ User.expiresAt (User.phoneOTP (revertOTP u)) = None
  ∧ User.count (User.otpRequestCount (revertOTP u))
    = User.count (User.otpRequestCount u) - 1.
Proof. done. Qed.

(** When [sendSMS] throws outside development mode, whatever the reason,
    both handlers store the document with the OTP fields cleared and the
    quota taken back by one. [resendOTP] answers 500; [sendOTP] answers
    500 unless the error text contains "validation failed", and 400
    then. *)
Lemma failed_delivery_rolls_back (drawn : string) (now : Z) (req : request)
    (w : world) (key : string) (user : User.user) (text m : string) :
  development env = false →
  RateLimiter.allowed
    (RateLimiter.checkLimit (phoneNumber req) now (limiter w)).1 = true →
  findOne (phoneNumber req) (users w) = Some (key, user) →
  User.canRequestOTP now user = true →
  sendSMS env (phoneNumber req) text = Throw m →
  (falsy (phoneNumber req) = false → User.isActive user = true →
   users (sendOTP env drawn now req w).2 !! key
     = Some (revertOTP (User.generateOTP drawn now user).2)
   ∧ status (sendOTP env drawn now req w).1
     = if includes "validation failed" ("Failed to send OTP: " +:+ m)
       then 400 else 500)
  ∧ (pendingExpiry now user = None →
     users (resendOTP env drawn now req w).2 !! key
       = Some (revertOTP (User.generateOTP drawn now user).2)
     ∧ status (resendOTP env drawn now req w).1 = 500).
Proof.
  intros Hdev Hallowed Hfind Hquota Hsms. split.
  - intros Hphone Hactive. unfold sendOTP. rewrite Hphone.
    destruct (RateLimiter.checkLimit _ _ _) as [r limiter']. simpl in *.
    rewrite Hallowed, Hfind, Hactive, Hquota. simpl.
    destruct (User.generateOTP drawn now user) as [code user'].
    rewrite (sendSMS_text _ _ text), Hsms, Hdev. simpl.
    split; [apply lookup_insert_eq|].
    unfold sendOTP_catch.
    by destruct (includes "validation failed" _).
  - intros Hpending. unfold resendOTP.
    destruct (RateLimiter.checkLimit _ _ _) as [r limiter']. simpl in *.
    rewrite Hallowed, Hfind, Hpending, Hquota. simpl.
    destruct (User.generateOTP drawn now user) as [code user'].
    rewrite (sendSMS_text _ _ text), Hsms, Hdev. simpl.
    split; [apply lookup_insert_eq | done].
Qed.

(** [resendOTP] has no answer 401. *)
Lemma resendOTP_never_401 (drawn : string) (now : Z) (req : request)
    (w : world) :
  status (resendOTP env drawn now req w).1 ≠ 401.
Proof.
  unfold resendOTP.
  destruct (RateLimiter.checkLimit _ _ _) as [r limiter'].
  destruct (RateLimiter.allowed r); simpl; [|done].
  destruct (findOne _ _) as [[key user]|]; [|done].
  destruct (pendingExpiry now user); [done|].
  destruct (User.canRequestOTP now user); simpl; [|done].
  destruct (User.generateOTP drawn now user) as [code user'].
  destruct (sendSMS _ _ _); [done|].
  destruct (development env); done.
Qed.

Lemma otpSent_hides_code text code code' u u' :
  development env = false →
  User.otpRequestCount u = User.otpRequestCount u' →
  User.expiresAt (User.phoneOTP u) = User.expiresAt (User.phoneOTP u') →
  otpSent env text code u = otpSent env text code' u'.
Proof. unfold otpSent. by intros -> -> ->. Qed.

Lemma otpSent_field text code u :
  is_Some (field "otp" (body (otpSent env text code u)))
  ↔ NODE_ENV env = "development".
Proof.
  unfold otpSent. rewrite <- String.eqb_eq. fold (development env).
  destruct (development env); simpl.
  - split; [done | by eexists].
  - split; [by intros [? ?] | done].
Qed.

Lemma sendOTP_catch_status m : status (sendOTP_catch env m) ≠ 200.
Proof. unfold sendOTP_catch. by destruct (includes _ _). Qed.

(** C8. The answer 200 of [sendOTP] and of [resendOTP] has an otp field
    exactly when NODE_ENV is "development". Outside development, two
    runs that differ in the drawn code alone give the same response,
    provided [generateOTP] sets the expiry and the quota without regard
    to the code it draws. *)
Theorem otp_field_only_in_development (now : Z) (req : request) (w : world)
    (drawn drawn' : string) :
  (∀ d d' t u,
     User.otpRequestCount (User.generateOTP d t u).2
     = User.otpRequestCount (User.generateOTP d' t u).2
     ∧ User.expiresAt (User.phoneOTP (User.generateOTP d t u).2)
       = User.expiresAt (User.phoneOTP (User.generateOTP d' t u).2)) →
  (status (sendOTP env drawn now req w).1 = 200 →
   (is_Some (field "otp" (body (sendOTP env drawn now req w).1))
    ↔ NODE_ENV env = "development"))
  ∧ (status (resendOTP env drawn now req w).1 = 200 →
     (is_Some (field "otp" (body (resendOTP env drawn now req w).1))
      ↔ NODE_ENV env = "development"))
  ∧ (NODE_ENV env ≠ "development" →
     (sendOTP env drawn now req w).1 = (sendOTP env drawn' now req w).1
     ∧ (resendOTP env drawn now req w).1
       = (resendOTP env drawn' now req w).1).
Proof.
  intros Hgen. split; [|split].
  - unfold sendOTP.
    destruct (falsy (phoneNumber req)); [done|].
    destruct (RateLimiter.checkLimit _ _ _) as [r limiter'].
    destruct (RateLimiter.allowed r); cbn [fst snd negb]; [|done].
    destruct (findOne _ _) as [[key user]|]; [|done].
    destruct (User.isActive user); cbn [fst snd negb]; [|done].
    destruct (User.canRequestOTP now user); cbn [fst snd negb]; [|done].
    destruct (User.generateOTP drawn now user) as [code user'].
    destruct (sendSMS _ _ _); cbn [fst snd negb]; [intros _; apply otpSent_field|].
    destruct (development env) eqn:Hdev; cbn [fst snd negb].
    + intros _. apply otpSent_field.
    + intros Hst. by apply sendOTP_catch_status in Hst.
  - unfold resendOTP.
    destruct (RateLimiter.checkLimit _ _ _) as [r limiter'].
    destruct (RateLimiter.allowed r); cbn [fst snd negb]; [|done].
    destruct (findOne _ _) as [[key user]|]; [|done].
    destruct (pendingExpiry now user); [done|].
    destruct (User.canRequestOTP now user); cbn [fst snd negb]; [|done].
    destruct (User.generateOTP drawn now user) as [code user'].
    destruct (sendSMS _ _ _); cbn [fst snd negb]; [intros _; apply otpSent_field|].
    destruct (development env) eqn:Hdev; cbn [fst snd negb]; [|done].
    intros _. apply otpSent_field.
  - intros Hprod.
    assert (Hdev : development env = false).
    { unfold development. by apply String.eqb_neq. }
    split.
    + unfold sendOTP.
      destruct (falsy (phoneNumber req)); [done|].
      destruct (RateLimiter.checkLimit _ _ _) as [r limiter'].
      destruct (RateLimiter.allowed r); cbn [fst snd negb]; [|done].
      destruct (findOne _ _) as [[key user]|]; [|done].
      destruct (User.isActive user); cbn [fst snd negb]; [|done].
      destruct (User.canRequestOTP now user); cbn [fst snd negb]; [|done].
      destruct (Hgen drawn drawn' now user) as [Hq He].
      destruct (User.generateOTP drawn now user) as [code user1].
      destruct (User.generateOTP drawn' now user) as [code' user2].
      rewrite (sendSMS_text _ _ ""), (sendSMS_text _ (_ +:+ code' +:+ _) "").
      destruct (sendSMS env (phoneNumber req) ""); cbn [fst snd negb].
      * by apply otpSent_hides_code.
      * by rewrite Hdev.
    + unfold resendOTP.
      destruct (RateLimiter.checkLimit _ _ _) as [r limiter'].
      destruct (RateLimiter.allowed r); cbn [fst snd negb]; [|done].
      destruct (findOne _ _) as [[key user]|]; [|done].
      destruct (pendingExpiry now user); [done|].
      destruct (User.canRequestOTP now user); cbn [fst snd negb]; [|done].
      destruct (Hgen drawn drawn' now user) as [Hq He].
      destruct (User.generateOTP drawn now user) as [code user1].
      destruct (User.generateOTP drawn' now user) as [code' user2].
      rewrite (sendSMS_text _ _ ""), (sendSMS_text _ (_ +:+ code' +:+ _) "").
      destruct (sendSMS env (phoneNumber req) ""); cbn [fst snd negb].
      * by apply otpSent_hides_code.
      * by rewrite Hdev.
Qed.

End Delivery.

(** C3 at a request the code can get: production, Twilio alone, which turns
    the number down with its usual text. Every provider has failed and the
    rollback is stored, but [sendOTP] answers 400: the text contains
    "phone number", so [sendSMS] relabels the failure a validation failure.
    [resendOTP] answers 500 in the same situation. *)
Example sendOTP_failed_delivery_400 :
  validatePhoneNumber Sample.phone = Return Sample.phone
  ∧ tryProviders Sample.twilioRejects
    = Throw "Failed to send SMS: Twilio: The 'To' number +15551234567 is not a valid phone number."
  ∧ status (sendOTP (M := User.specMethods) Sample.twilioRejects "042917" 1000
              Sample.request_ (Sample.world_ Sample.alice)).1 = 400
  ∧ field "msg"
      (body (sendOTP (M := User.specMethods) Sample.twilioRejects "042917" 1000
               Sample.request_ (Sample.world_ Sample.alice)).1)
    = Some (JStr "Failed to send OTP: Phone number validation failed: Failed to send SMS: Twilio: The 'To' number +15551234567 is not a valid phone number.")
  ∧ users (sendOTP (M := User.specMethods) Sample.twilioRejects "042917" 1000
             Sample.request_ (Sample.world_ Sample.alice)).2 !! Sample.phone
    = Some (revertOTP (User.specGenerateOtp "042917" 1000 Sample.alice).2)
  ∧ status (resendOTP (M := User.specMethods) Sample.twilioRejects "042917"
              1000 Sample.request_ (Sample.world_ Sample.alice)).1 = 500.
Proof. repeat split; vm_compute; reflexivity. Qed.

(** C7 at a request the code can get: the account is deactivated. [sendOTP]
    answers 401; [resendOTP] never looks at [isActive], answers 200 and
    stores a fresh code for the account. *)
Example resendOTP_deactivated_200 :
  User.isActive Sample.bob = false
  ∧ status (sendOTP (M := User.specMethods) Sample.production "042917" 1000
              Sample.request_ (Sample.world_ Sample.bob)).1 = 401
  ∧ status (resendOTP (M := User.specMethods) Sample.production "042917" 1000
              Sample.request_ (Sample.world_ Sample.bob)).1 = 200
  ∧ users (resendOTP (M := User.specMethods) Sample.production "042917" 1000
             Sample.request_ (Sample.world_ Sample.bob)).2 !! Sample.phone
    = Some (User.specGenerateOtp "042917" 1000 Sample.bob).2.
Proof. repeat split; vm_compute; reflexivity. Qed.

Lemma otp_field_only_in_development_witness :
  (∀ d d' t u,
     User.otpRequestCount (User.specGenerateOtp d t u).2
     = User.otpRequestCount (User.specGenerateOtp d' t u).2
     ∧ User.expiresAt (User.phoneOTP (User.specGenerateOtp d t u).2)
       = User.expiresAt (User.phoneOTP (User.specGenerateOtp d' t u).2))
  ∧ (sendOTP (M := User.specMethods) Sample.production "042917" 1000
       Sample.request_ (Sample.world_ Sample.alice)).1
    = (sendOTP (M := User.specMethods) Sample.production "555555" 1000
         Sample.request_ (Sample.world_ Sample.alice)).1.
Proof.
  assert (Hgen : ∀ d d' t u,
     User.otpRequestCount (User.specGenerateOtp d t u).2
     = User.otpRequestCount (User.specGenerateOtp d' t u).2
     ∧ User.expiresAt (User.phoneOTP (User.specGenerateOtp d t u).2)
       = User.expiresAt (User.phoneOTP (User.specGenerateOtp d' t u).2))
    by (intros; split; reflexivity).
  split; [exact Hgen|].
  assert (Hprod : NODE_ENV Sample.production ≠ "development")
    by (vm_compute; discriminate).
  exact (proj1 (proj2 (proj2
           (otp_field_only_in_development (M := User.specMethods)
              Sample.production 1000 Sample.request_
              (Sample.world_ Sample.alice) "042917" "555555" Hgen)) Hprod)).
Defined.

(** ** More on the rate limiter *)

Module RateLimiterRunFacts.
Import RateLimiter RateLimiterRuns RateLimiterFacts.

Lemma allowed_count_cons_eq key r rs :
  allowed_count key ((key, r) :: rs)
  = ((if allowed r then 1 else 0) + allowed_count key rs)%nat.
Proof.
  unfold allowed_count. rewrite answers_for_cons_eq.
  destruct (allowed r) eqn:Hr.
  - by rewrite filter_cons_True.
  - rewrite filter_cons_False; [done | by rewrite Hr].
Qed.

Lemma allowed_count_cons_ne key k r rs :
  k ≠ key → allowed_count key ((k, r) :: rs) = allowed_count key rs.
Proof. intros. unfold allowed_count. by rewrite answers_for_cons_ne. Qed.

Lemma capacity_nonneg a key (m : gmap string entry) :
  map_Forall (λ _ e, entry_ok e) m → 0 <= capacity a key m.
Proof.
  intros Hm. unfold capacity. destruct (m !! key) as [e|] eqn:He; [|lia].
  destruct (Hm _ _ He) as [Hc Hb].
  destruct (blocked e) eqn:Hbe; destruct (timestamp e <? a); try lia;
    (assert (count e ≠ 11) by (intros Heq; apply Hb in Heq; congruence); lia).
Qed.

Lemma capacity_le_19 a key (m : gmap string entry) :
  map_Forall (λ _ e, entry_ok e) m → capacity a key m <= 19.
Proof.
  intros Hm. unfold capacity. destruct (m !! key) as [e|] eqn:He; [|lia].
  destruct (Hm _ _ He) as [Hc Hb].
  destruct (blocked e); destruct (timestamp e <? a); lia.
Qed.

(** One call for [key] inside the span: an allowed answer uses up one unit
    of the capacity, a refusal none. *)
Lemma checkLimit_capacity a p now (m : gmap string entry) :
  map_Forall (λ _ e, entry_ok e) m →
  a <= now <= a + cleanupInterval →
  (if allowed (checkLimit p now m).1 then 1 else 0)
  + capacity a (template p) (checkLimit p now m).2
  <= capacity a (template p) m.
Proof.
  intros Hm Hnow. unfold capacity, checkLimit.
  destruct (m !! template p) as [e|] eqn:He; simpl.
  - destruct (Hm _ _ He) as [Hc Hb].
    destruct (Z.ltb_spec cleanupInterval (now - timestamp e)); simpl.
    + rewrite lookup_insert_eq. simpl.
      assert ((now <? a) = false) as -> by (apply Z.ltb_ge; lia).
      assert ((timestamp e <? a) = true) as -> by (apply Z.ltb_lt; lia).
      destruct (blocked e) eqn:Hbe; [lia|].
      assert (count e ≠ 11) by (intros Heq; apply Hb in Heq; congruence). lia.
    + destruct (blocked e) eqn:Hbe; simpl.
      * rewrite He, Hbe. lia.
      * destruct (Z.ltb_spec 10 (count e + 1)); simpl;
          rewrite lookup_insert_eq; simpl; rewrite ?Hbe;
          destruct (timestamp e <? a); lia.
  - rewrite lookup_insert_eq. simpl.
    assert ((now <? a) = false) as -> by (apply Z.ltb_ge; lia). lia.
Qed.

Lemma sweep_capacity a now key (m : gmap string entry) :
  map_Forall (λ _ e, entry_ok e) m →
  a <= now <= a + cleanupInterval →
  capacity a key (sweep now m) <= capacity a key m.
Proof.
  intros Hm Hnow. unfold capacity.
  destruct (m !! key) as [e|] eqn:He.
  - destruct (Hm _ _ He) as [Hc Hb].
    destruct (sweep now m !! key) as [e'|] eqn:He'.
    + apply sweep_lookup in He'. rewrite He in He'. injection He' as <-. lia.
    + destruct (Z.ltb_spec (timestamp e) a).
      * destruct (blocked e) eqn:Hbe; [lia|].
        assert (count e ≠ 11) by (intros Heq; apply Hb in Heq; congruence). lia.
      * rewrite (sweep_keeps now m key e He) in He' by lia. done.
  - destruct (sweep now m !! key) as [e'|] eqn:He'; [|lia].
    apply sweep_lookup in He'. congruence.
Qed.

Lemma sweep_entry_ok now (m : gmap string entry) :
  map_Forall (λ _ e, entry_ok e) m →
  map_Forall (λ _ e, entry_ok e) (sweep now m).
Proof. intros Hm k e He. apply sweep_lookup in He. by eapply Hm. Qed.

Lemma run_capacity a key evs :
  ∀ m : gmap string entry,
    map_Forall (λ _ e, entry_ok e) m →
    Forall (in_span a) evs →
    Z.of_nat (allowed_count key (run evs m).1) <= capacity a key m.
Proof.
  induction evs as [|e evs IH]; intros m Hm Hall.
  - simpl. by apply capacity_nonneg.
  - apply Forall_cons in Hall as [He Hall].
    destruct e as [p now| now |]; simpl in *; [| |done].
    + pose proof (checkLimit_entry_ok p now m Hm) as Hm'.
      pose proof (checkLimit_capacity a p now m Hm He) as Hcap.
      pose proof (checkLimit_other p now m key) as Hother.
      destruct (checkLimit p now m) as [r0 m'].
      specialize (IH m' Hm' Hall).
      destruct (run evs m') as [rs final]. simpl in *.
      destruct (decide (template p = key)) as [<-|Hne].
      * rewrite allowed_count_cons_eq. destruct (allowed r0); lia.
      * rewrite allowed_count_cons_ne by done.
        specialize (Hother Hne). unfold capacity in *.
        by rewrite <- Hother.
    + etrans; [apply IH; [by apply sweep_entry_ok | done]|].
      by apply sweep_capacity.
Qed.

(** X1. Whatever the map holds (as long as it is one the limiter can have
    built) and in whatever order calls and timer ticks come: of the calls
    for one number whose clock readings lie in one span of an hour, at
    most 19 are let through, and at most 10 when the number has no entry
    at the start. *)
Theorem checkLimit_hourly_bound (key : string) (a : Z) (evs : list event)
    (m : gmap string entry) :
  map_Forall (λ _ e, entry_ok e) m →
  Forall (in_span a) evs →
  (allowed_count key (run evs m).1 <= 19)%nat
  ∧ (m !! key = None → (allowed_count key (run evs m).1 <= 10)%nat).
Proof.
  intros Hm Hall.
  pose proof (run_capacity a key evs m Hm Hall) as Hrun.
  pose proof (capacity_le_19 a key m Hm) as H19.
  split; [lia|]. intros Hnone. unfold capacity in Hrun.
  rewrite Hnone in Hrun. lia.
Qed.

End RateLimiterRunFacts.

Module RateLimiterMoreFacts.
Import RateLimiter RateLimiterRuns RateLimiterFacts.

Lemma hourly_bound_witness :
  map_Forall (λ _ e, entry_ok e) SampleRuns.oldEntry
  ∧ Forall (in_span 1) SampleRuns.straddle
  ∧ (allowed_count Sample.phone (run SampleRuns.straddle SampleRuns.oldEntry).1
     <= 19)%nat.
Proof.
  assert (Hok : map_Forall (λ _ e, entry_ok e) SampleRuns.oldEntry).
  { apply map_Forall_singleton. unfold entry_ok. simpl.
    split; [lia|]. split; [done | lia]. }
  assert (Hspan : Forall (in_span 1) SampleRuns.straddle).
  { unfold SampleRuns.straddle. simpl.
    repeat constructor; unfold cleanupInterval; lia. }
  split; [exact Hok|]. split; [exact Hspan|].
  exact (proj1 (RateLimiterRunFacts.checkLimit_hourly_bound Sample.phone 1
                  SampleRuns.straddle SampleRuns.oldEntry Hok Hspan)).
Defined.

(** The bound of X1 is reached: 19 of the 20 calls of the sample go
    through. *)
Example hourly_bound_reached :
  allowed_count Sample.phone (run SampleRuns.straddle SampleRuns.oldEntry).1
  = 19%nat.
Proof. vm_compute. reflexivity. Qed.

(** The answer to a call and the entry it leaves depend on nothing but the
    entry of its own key. *)
Lemma checkLimit_local p now (m1 m2 : gmap string entry) :
  m1 !! template p = m2 !! template p →
  (checkLimit p now m1).1 = (checkLimit p now m2).1
  ∧ (checkLimit p now m1).2 !! template p
    = (checkLimit p now m2).2 !! template p.
Proof.
  intros Heq. unfold checkLimit. rewrite <- Heq.
  destruct (m1 !! template p) as [e|] eqn:He; simpl.
  - destruct (cleanupInterval <? now - timestamp e); simpl;
      [by rewrite !lookup_insert_eq|].
    destruct (blocked e); simpl; [by rewrite He, <- Heq|].
    destruct (10 <? count e + 1); simpl; by rewrite !lookup_insert_eq.
  - by rewrite !lookup_insert_eq.
Qed.

Lemma sweep_local now (m1 m2 : gmap string entry) k :
  m1 !! k = m2 !! k → sweep now m1 !! k = sweep now m2 !! k.
Proof. intros Heq. unfold sweep. by rewrite !map_lookup_filter, Heq. Qed.

Lemma run_only_for key evs :
  ∀ m1 m2 : gmap string entry,
    m1 !! key = m2 !! key →
    answers_for key (run evs m1).1
    = answers_for key (run (only_for key evs) m2).1.
Proof.
  induction evs as [|e evs IH]; intros m1 m2 Heq; [done|].
  destruct e as [p now| now |].
  - destruct (decide (template p = key)) as [<-|Hne].
    + unfold only_for. rewrite filter_cons_True by (simpl; tauto).
      fold (only_for (template p) evs). simpl.
      destruct (checkLimit_local p now m1 m2 Heq) as [Hr Hm].
      destruct (checkLimit p now m1) as [r1 m1'].
      destruct (checkLimit p now m2) as [r2 m2'].
      simpl in *. subst r2. specialize (IH m1' m2' Hm).
      destruct (run evs m1') as [rs1 f1].
      destruct (run (only_for (template p) evs) m2') as [rs2 f2].
      simpl in *. rewrite !answers_for_cons_eq. by f_equal.
    + unfold only_for. rewrite filter_cons_False by (simpl; tauto).
      fold (only_for key evs). simpl.
      pose proof (checkLimit_other p now m1 key Hne) as Hother.
      destruct (checkLimit p now m1) as [r1 m1'].
      simpl in Hother. rewrite <- Hother in Heq. specialize (IH m1' m2 Heq).
      destruct (run evs m1') as [rs1 f1]. simpl in *.
      by rewrite answers_for_cons_ne.
  - unfold only_for. rewrite filter_cons_True by (simpl; tauto).
    fold (only_for key evs). simpl. apply IH. by apply sweep_local.
  - unfold only_for. rewrite filter_cons_True by (simpl; tauto).
    fold (only_for key evs). simpl. by apply IH.
Qed.

(** X2. Numbers are limited independently: the answers a number gets in a
    run are the answers it gets when the calls for all other numbers are
    left out of the run. *)
Theorem answers_independent (key : string) (evs : list event)
    (m : gmap string entry) :
  answers_for key (run evs m).1
  = answers_for key (run (only_for key evs) m).1.
Proof. by apply run_only_for. Qed.

Lemma swept_later t t' (m1 m2 : gmap string entry) :
  t <= t' → swept t m1 m2 → swept t' m1 m2.
Proof.
  intros Ht H k. destruct (H k) as [Heq|[Hnone [e [He Hold]]]].
  - by left.
  - right. split; [done|]. exists e. split; [done | lia].
Qed.

Lemma checkLimit_swept t p now (m1 m2 : gmap string entry) :
  swept t m1 m2 → t <= now →
  (checkLimit p now m1).1 = (checkLimit p now m2).1
  ∧ swept now (checkLimit p now m1).2 (checkLimit p now m2).2.
Proof.
  intros Hsw Ht.
  assert (Hkey : (checkLimit p now m1).1 = (checkLimit p now m2).1
                 ∧ (checkLimit p now m1).2 !! template p
                   = (checkLimit p now m2).2 !! template p).
  { destruct (Hsw (template p)) as [Heq|[Hnone [e [He Hold]]]].
    - by apply checkLimit_local.
    - unfold checkLimit. rewrite Hnone, He. simpl.
      assert ((cleanupInterval <? now - timestamp e) = true) as ->
        by (apply Z.ltb_lt; lia).
      simpl. by rewrite !lookup_insert_eq. }
  destruct Hkey as [Hr Hm]. split; [done|].
  intros k. destruct (decide (template p = k)) as [<-|Hne].
  - by left.
  - unfold swept_at. rewrite !(checkLimit_other p now _ k Hne).
    by apply (swept_later t now).
Qed.

Lemma sweep_swept t now (m1 m2 : gmap string entry) :
  swept t m1 m2 → t <= now → swept now (sweep now m1) m2.
Proof.
  intros Hsw Ht k. unfold swept_at.
  destruct (Hsw k) as [Heq|[Hnone [e [He Hold]]]].
  - destruct (m2 !! k) as [e|] eqn:He.
    + destruct (decide (cleanupInterval < now - timestamp e)) as [Hold|Hnew].
      * right. split.
        -- apply map_lookup_filter_None. right. intros e' He'.
           rewrite Heq in He'. injection He' as <-. simpl. tauto.
        -- by exists e.
      * left. apply sweep_keeps; [done | lia].
    + left. destruct (sweep now m1 !! k) as [e'|] eqn:He'; [|done].
      apply sweep_lookup in He'. congruence.
  - right. split.
    + destruct (sweep now m1 !! k) as [e'|] eqn:He'; [|done].
      apply sweep_lookup in He'. congruence.
    + exists e. split; [done | lia].
Qed.

Lemma run_without_sweeps evs :
  ∀ t (m1 m2 : gmap string entry),
    swept t m1 m2 → monotone t evs →
    (run evs m1).1 = (run (without_sweeps evs) m2).1.
Proof.
  induction evs as [|e evs IH]; intros t m1 m2 Hsw Hmono; [done|].
  destruct e as [p now| now |]; simpl in Hmono.
  - destruct Hmono as [Ht Hmono].
    unfold without_sweeps. rewrite filter_cons_True by done.
    fold (without_sweeps evs). simpl.
    destruct (checkLimit_swept t p now m1 m2 Hsw Ht) as [Hr Hsw'].
    destruct (checkLimit p now m1) as [r1 m1'].
    destruct (checkLimit p now m2) as [r2 m2'].
    simpl in *. subst r2. specialize (IH now m1' m2' Hsw' Hmono).
    destruct (run evs m1') as [rs1 f1].
    destruct (run (without_sweeps evs) m2') as [rs2 f2].
    simpl in *. by f_equal.
  - destruct Hmono as [Ht Hmono].
    unfold without_sweeps. rewrite filter_cons_False by done.
    fold (without_sweeps evs). simpl.
    apply (IH now); [by apply (sweep_swept t) | done].
  - unfold without_sweeps. rewrite filter_cons_True by done.
    fold (without_sweeps evs). simpl.
    apply (IH t); [|done]. intros k. by left.
Qed.

(** X3. With a clock that does not go back, the cleanup timer is not
    observable: a run gives every call the answer it gets in the same run
    without the ticks of the timer. *)
Theorem sweeps_unobservable (t : Z) (evs : list event)
    (m : gmap string entry) :
  monotone t evs →
  (run evs m).1 = (run (without_sweeps evs) m).1.
Proof.
  intros Hmono. apply (run_without_sweeps evs t); [|done].
  intros k. by left.
Qed.

Lemma sweeps_unobservable_witness :
  monotone 0 SampleRuns.mixed
  ∧ (run SampleRuns.mixed ∅).1
    = (run (without_sweeps SampleRuns.mixed) ∅).1.
Proof.
  assert (Hmono : monotone 0 SampleRuns.mixed)
    by (simpl; repeat split; lia).
  split; [exact Hmono|].
  exact (sweeps_unobservable 0 SampleRuns.mixed ∅ Hmono).
Defined.

(** X4. The [retryAfter] of a refusal is never too early: when the entry
    of the number was not stamped in the future, a call for the number
    that comes next and later than [retryAfter] is allowed. *)
Theorem retryAfter_sufficient (p : option string) (now now' t : Z)
    (m : gmap string entry) :
  (∀ e, m !! template p = Some e → timestamp e <= now) →
  allowed (checkLimit p now m).1 = false →
  retryAfter (checkLimit p now m).1 = Some t →
  t < now' →
  allowed (checkLimit p now' (checkLimit p now m).2).1 = true.
Proof.
  intros Hstamp Hrefused Hretry Hlater.
  assert (Hentry : ∃ e, (checkLimit p now m).2 !! template p = Some e
                        ∧ timestamp e + cleanupInterval <= t).
  { revert Hrefused Hretry. unfold checkLimit.
    destruct (m !! template p) as [e|] eqn:He; simpl; [|done].
    specialize (Hstamp e eq_refl).
    destruct (cleanupInterval <? now - timestamp e); simpl; [done|].
    destruct (blocked e); simpl.
    - intros _ [= <-]. exists e. split; [done | lia].
    - destruct (10 <? count e + 1); simpl; [|done].
      intros _ [= <-]. eexists. rewrite lookup_insert_eq.
      split; [done|]. simpl. lia. }
  destruct Hentry as [e [He Hold]].
  unfold checkLimit at 1. rewrite He. simpl.
  assert ((cleanupInterval <? now' - timestamp e) = true) as ->
    by (apply Z.ltb_lt; lia).
  done.
Qed.

Lemma retryAfter_sufficient_witness :
  (∀ e, SampleRuns.blockedNumber !! Sample.phone = Some e →
        timestamp e <= 5000)
  ∧ allowed (checkLimit (Some Sample.phone) 5000
               SampleRuns.blockedNumber).1 = false
  ∧ retryAfter (checkLimit (Some Sample.phone) 5000
                  SampleRuns.blockedNumber).1 = Some 3601000
  ∧ allowed (checkLimit (Some Sample.phone) 3601001
               (checkLimit (Some Sample.phone) 5000
                  SampleRuns.blockedNumber).2).1 = true.
Proof.
  assert (Hstamp : ∀ e, SampleRuns.blockedNumber !! template (Some Sample.phone)
                        = Some e → timestamp e <= 5000).
  { intros e He. vm_compute in He. injection He as <-. simpl. lia. }
  assert (Hrefused : allowed (checkLimit (Some Sample.phone) 5000
                                SampleRuns.blockedNumber).1 = false)
    by reflexivity.
  assert (Hretry : retryAfter (checkLimit (Some Sample.phone) 5000
                                 SampleRuns.blockedNumber).1 = Some 3601000)
    by reflexivity.
  split; [exact Hstamp|]. split; [exact Hrefused|]. split; [exact Hretry|].
  exact (retryAfter_sufficient (Some Sample.phone) 5000 3601001 3601000
           SampleRuns.blockedNumber Hstamp Hrefused Hretry ltac:(lia)).
Defined.

End RateLimiterMoreFacts.

(** ** The life cycle of the rate limiter *)

Module LifecycleFacts.
Import Lifecycle.

Lemma clearTimer_tidy s : tidy s → clearTimer s = ∅.
Proof.
  unfold tidy, clearTimer. intros ->.
  destruct (cleanupTimer s); [apply difference_diag_L | done].
Qed.

Lemma init_tidy s : tidy s → tidy (init s).
Proof.
  intros Hs. unfold tidy, init. simpl.
  rewrite (clearTimer_tidy s Hs). apply (left_id_L ∅ (∪)).
Qed.

Lemma cleanup_tidy s : tidy s → tidy (cleanup s).
Proof. intros Hs. unfold tidy, cleanup. simpl. by apply clearTimer_tidy. Qed.

Lemma cleanups_tidy n s : tidy s → tidy (Nat.iter n cleanup s).
Proof. intros Hs. induction n as [|n IH]; [done|]. simpl. by apply cleanup_tidy. Qed.

Lemma apply_tidy st s : tidy s → tidy (apply st s).
Proof.
  intros Hs. destruct st; simpl.
  - by apply init_tidy.
  - by apply cleanups_tidy.
  - done.
  - done.
Qed.

Lemma play_tidy steps : ∀ s, tidy s → tidy (play steps s).
Proof.
  induction steps as [|st steps IH]; intros s Hs; [done|].
  simpl. apply IH. by apply apply_tidy.
Qed.

Lemma cleanups_done n s :
  (0 < n)%nat → tidy s →
  attempts (Nat.iter n cleanup s) = ∅
  ∧ cleanupTimer (Nat.iter n cleanup s) = None
  ∧ intervals (Nat.iter n cleanup s) = ∅.
Proof.
  intros Hn Hs. destruct n as [|n]; [lia|]. simpl.
  split; [done|]. split; [done|].
  apply clearTimer_tidy. by apply cleanups_tidy.
Qed.

Lemma sweeps_empty n now :
  Nat.iter n (RateLimiter.sweep now) (∅ : gmap string RateLimiter.entry) = ∅.
Proof.
  induction n as [|n IH]; [done|]. simpl. rewrite IH.
  unfold RateLimiter.sweep. apply map_filter_empty.
Qed.

(** X5. However often [init] is run, and whatever requests, timer periods
    and signals come in between: the event loop never holds more than one
    sweep timer, and it is the one [cleanupTimer] names. Once [init] has
    run, a signal leaves no timer and an empty map, and a timer period
    after it sweeps nothing. *)
Theorem one_sweep_timer (steps : list step) :
  (size (intervals (play steps created)) <= 1)%nat
  ∧ tidy (play steps created)
  ∧ ((0 < listeners (play steps created))%nat →
     intervals (signal (play steps created)) = ∅
     ∧ cleanupTimer (signal (play steps created)) = None
     ∧ attempts (signal (play steps created)) = ∅
     ∧ ∀ now, tick now (signal (play steps created))
              = signal (play steps created)).
Proof.
  assert (Htidy : tidy (play steps created)) by (by apply play_tidy).
  split; [|split; [done|]].
  - rewrite Htidy. destruct (cleanupTimer _).
    + rewrite size_singleton. lia.
    + rewrite size_empty. lia.
  - intros Hinit. unfold signal.
    destruct (cleanups_done _ _ Hinit Htidy) as [Hmap [Htimer Hint]].
    split; [done|]. split; [done|]. split; [done|].
    intros now. unfold tick. rewrite Hint, Hmap, size_empty. simpl.
    destruct (Nat.iter _ cleanup _) as [a c i n l]. simpl in *. by subst.
Qed.

End LifecycleFacts.

(** ** More on the phone-number validation *)

Section ValidationMore.

Lemma digitsOnly_app (s1 s2 : string) :
  digitsOnly (s1 +:+ s2) = digitsOnly s1 +:+ digitsOnly s2.
Proof.
  induction s1 as [|c s1 IH]; [done|]. simpl.
  destruct (isDigit c); simpl; by rewrite IH.
Qed.

Lemma cleanPhoneNumber_idemp p :
  cleanPhoneNumber (cleanPhoneNumber p) = cleanPhoneNumber p.
Proof.
  rewrite (cleanPhoneNumber_shape (cleanPhoneNumber p)).
  rewrite hasPlus_clean, digitsOnly_clean.
  by rewrite <- cleanPhoneNumber_shape.
Qed.

(** X6. Validation looks at the cleaned number only: the cleaned form of
    any phone number, accepted or not, gets the verdict of the number
    itself, the same result or the same error. *)
Theorem validatePhoneNumber_clean (p : string) :
  validatePhoneNumber (cleanPhoneNumber p) = validatePhoneNumber p.
Proof. unfold validatePhoneNumber. by rewrite cleanPhoneNumber_idemp. Qed.

(** X7. Separators do not matter: a character that is not a digit, put
    anywhere behind the first character of a phone number, changes neither
    the verdict nor the cleaned result. A ['+'] behind the first character
    is such a character. *)
Theorem validatePhoneNumber_separator (s1 s2 : string) (c : ascii) :
  s1 ≠ "" →
  isDigit c = false →
  validatePhoneNumber (s1 +:+ String c s2) = validatePhoneNumber (s1 +:+ s2).
Proof.
  intros Hs1 Hc.
  assert (Hclean : cleanPhoneNumber (s1 +:+ String c s2)
                   = cleanPhoneNumber (s1 +:+ s2)).
  { destruct s1 as [|c1 r1]; [done|]. simpl.
    assert (Hd : ∀ x, digitsOnly (x +:+ String c s2) = digitsOnly (x +:+ s2)).
    { intros x. rewrite !digitsOnly_app. simpl. by rewrite Hc. }
    destruct (isPlus c1); [by rewrite Hd|].
    destruct (isDigit c1); by rewrite Hd. }
  unfold validatePhoneNumber. by rewrite Hclean.
Qed.

Lemma validatePhoneNumber_separator_witness :
  "+1" ≠ ""
  ∧ isDigit "-" = false
  ∧ validatePhoneNumber ("+1" +:+ String "-" "5551234567")
    = validatePhoneNumber ("+1" +:+ "5551234567").
Proof.
  assert (H1 : "+1" ≠ "") by discriminate.
  assert (H2 : isDigit "-" = false) by reflexivity.
  split; [exact H1|]. split; [exact H2|].
  exact (validatePhoneNumber_separator "+1" "5551234567" "-" H1 H2).
Defined.

(** X8. Which error a rejected number gets. The format error: the first
    digit is not 1-9, or there are fewer than 2 or more than 15 digits.
    "Too short": the format is right and the cleaned number, a ['+']
    counted, has fewer than 8 characters. "Too long": only for a ['+']
    followed by exactly 15 digits. There is no other error. *)
Theorem validatePhoneNumber_errors (p : string) :
  (validatePhoneNumber p
   = Throw "Invalid phone number format. Please use international format (e.g., +1234567890)"
   ↔ ¬ (leadingNonZero p = true ∧ (2 <= digitCount p <= 15)%nat))
  ∧ (validatePhoneNumber p
     = Throw "Phone number too short. Please include country code."
     ↔ leadingNonZero p = true
       ∧ (2 <= digitCount p)%nat
       ∧ (digitCount p + (if hasPlus p then 1 else 0) < 8)%nat)
  ∧ (validatePhoneNumber p
     = Throw "Phone number too long. Maximum 15 digits allowed."
     ↔ leadingNonZero p = true ∧ hasPlus p = true ∧ digitCount p = 15%nat)
  ∧ (∀ m, validatePhoneNumber p = Throw m →
       m = "Invalid phone number format. Please use international format (e.g., +1234567890)"
       ∨ m = "Phone number too short. Please include country code."
       ∨ m = "Phone number too long. Maximum 15 digits allowed.").
Proof.
  unfold validatePhoneNumber.
  pose proof (matchesInternational_clean p) as Hre.
  rewrite (length_clean p).
  destruct (matchesInternational (cleanPhoneNumber p)); simpl.
  - destruct Hre as [Hre _]. specialize (Hre eq_refl) as [Hnz Hdc].
    destruct (Nat.ltb_spec (digitCount p + if hasPlus p then 1 else 0) 8)
      as [Hshort|Hshort]; simpl.
    + split; [|split; [|split]].
      * split; [discriminate | intros Hn; exfalso; apply Hn; split; [done | lia]].
      * split; [intros _; split; [done | split; lia] | done].
      * split; [discriminate|].
        intros [_ [Hplus H15]]. rewrite Hplus in Hshort. lia.
      * intros m [= <-]. right. by left.
    + destruct (Nat.ltb_spec 15 (digitCount p + if hasPlus p then 1 else 0))
        as [Hlong|Hlong]; simpl.
      * split; [|split; [|split]].
        -- split; [discriminate | intros Hn; exfalso; apply Hn; split; [done | lia]].
        -- split; [discriminate | intros [_ [_ Hlt]]; lia].
        -- split; [|done]. intros _. split; [done|].
           destruct (hasPlus p); [split; [done | lia] | lia].
        -- intros m [= <-]. right. by right.
      * split; [|split; [|split]].
        -- split; [discriminate | intros Hn; exfalso; apply Hn; split; [done | lia]].
        -- split; [discriminate | intros [_ [_ Hlt]]; lia].
        -- split; [discriminate|].
           intros [_ [Hplus H15]]. rewrite Hplus in Hlong. lia.
        -- intros m Hm. discriminate.
  - assert (Hbad : ¬ (leadingNonZero p = true ∧ (2 <= digitCount p <= 15)%nat)).
    { intros Hok. destruct Hre as [_ Hre]. by specialize (Hre Hok). }
    split; [|split; [|split]].
    + split; [done | done].
    + split; [discriminate|].
      intros [Hnz [Hdc Hlen]]. exfalso. apply Hbad. split; [done|].
      destruct (hasPlus p); lia.
    + split; [discriminate|].
      intros [Hnz [Hplus H15]]. exfalso. apply Hbad. split; [done | lia].
    + intros m [= <-]. by left.
Qed.

End ValidationMore.

(** ** More on the SMS helper and the OTP handlers *)

Section DeliveryMore.

Context `{M : User.Methods}.
Variable env : environment.

Lemma tryProviders_returned :
  returned (tryProviders env) = true
  ↔ messageBirdClient env = Some (Return tt)
    ∨ twilioClient env = Some (Return tt).
Proof.
  unfold tryProviders, tryProvider.
  destruct (messageBirdClient env) as [[[]|m1]|];
    destruct (twilioClient env) as [[[]|m2]|]; simpl;
    split; try done; try (intros _; by left); try (intros _; by right);
    intros [?|?]; done.
Qed.

(** X9. An SMS goes out exactly when the number is there and valid and a
    configured provider takes the message - MessageBird, or Twilio as the
    fallback - or when no provider is configured at all and the process
    runs in development mode, where nothing is sent and success is
    reported. *)
Theorem sendSMS_returned (p : option string) (text : string) :
  returned (sendSMS env p text) = true
  ↔ ∃ s, p = Some s
         ∧ returned (validatePhoneNumber s) = true
         ∧ (messageBirdClient env = Some (Return tt)
            ∨ twilioClient env = Some (Return tt)
            ∨ (messageBirdClient env = None ∧ twilioClient env = None
               ∧ NODE_ENV env = "development")).
Proof.
  assert (Hwrap : ∀ o : outcome unit, returned (wrapValidation o) = returned o).
  { intros [[]|m]; simpl; [done|]. by destruct (includes _ _). }
  unfold sendSMS. rewrite Hwrap. destruct p as [s|]; simpl.
  - destruct (validatePhoneNumber s) as [v|m] eqn:Hv; simpl.
    + destruct (messageBirdClient env) as [mb|] eqn:Hmb.
      { rewrite tryProviders_returned, Hmb. split.
        - intros Hsent. exists s. rewrite Hv. tauto.
        - intros [s' [_ [_ [H|[H|[H _]]]]]]; [by left | by right | done]. }
      destruct (twilioClient env) as [tw|] eqn:Htw.
      { rewrite tryProviders_returned, Hmb, Htw. split.
        - intros Hsent. exists s. rewrite Hv. tauto.
        - intros [s' [_ [_ [H|[H|[_ [H _]]]]]]]; [by left | by right | done]. }
      unfold development.
      destruct (String.eqb_spec (NODE_ENV env) "development") as [Hdev|Hdev];
        simpl.
      * split; [|done]. intros _. exists s. rewrite Hv. tauto.
      * split; [done|]. intros [s' [_ [_ [H|[H|[_ [_ H]]]]]]]; done.
    + split; [done|]. intros [s' [[= <-] [Hok _]]]. by rewrite Hv in Hok.
  - split; [done|]. intros [s' [? _]]. done.
Qed.

(** X10. In development mode a delivery that fails is passed over: once
    the guards of [sendOTP] or [resendOTP] are passed, the answer is 200
    with the code in its otp field and the generated document is stored,
    whatever [sendSMS] does. *)
Theorem development_always_200 (drawn : string) (now : Z) (req : request)
    (w : world) (key : string) (user : User.user) :
  development env = true →
  RateLimiter.allowed
    (RateLimiter.checkLimit (phoneNumber req) now (limiter w)).1 = true →
  findOne (phoneNumber req) (users w) = Some (key, user) →
  User.canRequestOTP now user = true →
  (falsy (phoneNumber req) = false → User.isActive user = true →
   status (sendOTP env drawn now req w).1 = 200
   ∧ field "otp" (body (sendOTP env drawn now req w).1)
     = Some (JStr (User.generateOTP drawn now user).1)
   ∧ users (sendOTP env drawn now req w).2 !! key
     = Some (User.generateOTP drawn now user).2)
  ∧ (pendingExpiry now user = None →
     status (resendOTP env drawn now req w).1 = 200
     ∧ field "otp" (body (resendOTP env drawn now req w).1)
       = Some (JStr (User.generateOTP drawn now user).1)
     ∧ users (resendOTP env drawn now req w).2 !! key
       = Some (User.generateOTP drawn now user).2).
Proof.
  intros Hdev Hallowed Hfind Hquota. split.
  - intros Hphone Hactive. unfold sendOTP. rewrite Hphone.
    destruct (RateLimiter.checkLimit _ _ _) as [r limiter']. simpl in *.
    rewrite Hallowed, Hfind, Hactive, Hquota. simpl.
    destruct (User.generateOTP drawn now user) as [code user'].
    rewrite Hdev. simpl.
    destruct (sendSMS _ _ _); simpl; unfold otpSent; rewrite Hdev; simpl;
      (split; [done|]; split; [done | apply lookup_insert_eq]).
  - intros Hpending. unfold resendOTP.
    destruct (RateLimiter.checkLimit _ _ _) as [r limiter']. simpl in *.
    rewrite Hallowed, Hfind, Hpending, Hquota. simpl.
    destruct (User.generateOTP drawn now user) as [code user'].
    rewrite Hdev. simpl.
    destruct (sendSMS _ _ _); simpl; unfold otpSent; rewrite Hdev; simpl;
      (split; [done|]; split; [done | apply lookup_insert_eq]).
Qed.

(** X11. A number that fails validation, outside development mode and for
    an account that gets as far as the OTP generation: [sendOTP] answers
    400 when the format is wrong and 500 when only the length is - the
    length errors do not contain the words "phone number" in lower case
    and are not relabelled. [resendOTP] answers 500 in both cases. *)
Theorem invalid_number_status (drawn : string) (now : Z) (req : request)
    (w : world) (p : string) (user : User.user) (m : string) :
  development env = false →
  RateLimiter.allowed
    (RateLimiter.checkLimit (phoneNumber req) now (limiter w)).1 = true →
  phoneNumber req = Some p →
  users w !! p = Some user →
  User.canRequestOTP now user = true →
  validatePhoneNumber p = Throw m →
  (falsy (phoneNumber req) = false → User.isActive user = true →
   status (sendOTP env drawn now req w).1
   = if matchesInternational (cleanPhoneNumber p) then 500 else 400)
  ∧ (pendingExpiry now user = None →
     status (resendOTP env drawn now req w).1 = 500).
Proof.
  intros Hdev Hallowed Hp Huser Hquota Hinvalid.
  assert (Hfind : findOne (phoneNumber req) (users w) = Some (p, user)).
  { rewrite Hp. simpl. by rewrite Huser. }
  assert (Hsms : ∀ text,
            sendSMS env (phoneNumber req) text = wrapValidation (Throw m)).
  { intros text. unfold sendSMS. by rewrite Hp, Hinvalid. }
  split.
  - intros Hphone Hactive. unfold sendOTP. rewrite Hphone.
    destruct (RateLimiter.checkLimit _ _ _) as [r limiter']. simpl in *.
    rewrite Hallowed, Hfind, Hactive, Hquota. simpl.
    destruct (User.generateOTP drawn now user) as [code user'].
    rewrite Hsms. revert Hinvalid. unfold validatePhoneNumber.
    destruct (matchesInternational (cleanPhoneNumber p)); simpl.
    + destruct (_ <? 8)%nat; [intros [= <-]; by rewrite Hdev|].
      destruct (15 <? _)%nat; [intros [= <-]; by rewrite Hdev | done].
    + intros [= <-]. by rewrite Hdev.
  - intros Hpending. unfold resendOTP.
    destruct (RateLimiter.checkLimit _ _ _) as [r limiter']. simpl in *.
    rewrite Hallowed, Hfind, Hpending, Hquota. simpl.
    destruct (User.generateOTP drawn now user) as [code user'].
    rewrite Hsms. simpl. destruct (includes "phone number" m); by rewrite Hdev.
Qed.

End DeliveryMore.

Lemma development_always_200_witness :
  development SampleRequests.devTwilioDown = true
  ∧ returned (sendSMS SampleRequests.devTwilioDown (Some Sample.phone) "")
    = false
  ∧ status (sendOTP (M := User.specMethods) SampleRequests.devTwilioDown
              "042917" 1000 Sample.request_ (Sample.world_ Sample.alice)).1
    = 200
  ∧ field "otp"
      (body (sendOTP (M := User.specMethods) SampleRequests.devTwilioDown
               "042917" 1000 Sample.request_ (Sample.world_ Sample.alice)).1)
    = Some (JStr "042917").
Proof.
  assert (Hdev : development SampleRequests.devTwilioDown = true)
    by reflexivity.
  split; [exact Hdev|]. split; [reflexivity|].
  pose proof (development_always_200 (M := User.specMethods)
                SampleRequests.devTwilioDown "042917" 1000 Sample.request_
                (Sample.world_ Sample.alice) Sample.phone Sample.alice
                Hdev eq_refl eq_refl eq_refl) as [Hsend _].
  destruct (Hsend eq_refl eq_refl) as [Hstatus [Hotp _]].
  split; [exact Hstatus | exact Hotp].
Defined.

Lemma invalid_number_status_witness :
  validatePhoneNumber SampleRequests.shortPhone
  = Throw "Phone number too short. Please include country code."
  ∧ status (sendOTP (M := User.specMethods) Sample.production "042917" 1000
              SampleRequests.shortRequest SampleRequests.shortWorld).1 = 500.
Proof.
  assert (Hinvalid : validatePhoneNumber SampleRequests.shortPhone
            = Throw "Phone number too short. Please include country code.")
    by reflexivity.
  split; [exact Hinvalid|].
  pose proof (invalid_number_status (M := User.specMethods) Sample.production
                "042917" 1000 SampleRequests.shortRequest
                SampleRequests.shortWorld SampleRequests.shortPhone
                Sample.alice _ eq_refl eq_refl eq_refl eq_refl eq_refl
                Hinvalid) as [Hsend _].
  exact (Hsend eq_refl eq_refl).
Defined.

Section HandlerFrames.

Context `{M : User.Methods}.
Variable env : environment.

Lemma save_other key u w k :
  key ≠ k → users (save key u w) !! k = users w !! k.
Proof. intros Hne. unfold save. simpl. by rewrite lookup_insert_ne. Qed.

Lemma findOne_key p (us : gmap string User.user) key user :
  findOne p us = Some (key, user) → p = Some key ∧ us !! key = Some user.
Proof.
  unfold findOne. destruct p as [s|]; [|done].
  destruct (us !! s) as [u|] eqn:Hu; simpl; [|done].
  by intros [= <- <-].
Qed.

(** X12. Every send request that names a phone number and every resend
    request is counted by the rate limiter, whatever becomes of it: the
    limiter the handler leaves behind is the one [checkLimit] has left.
    [verifyOTP] and a send request without a phone number leave the
    limiter as it was. *)
Theorem limiter_charged (drawn : string) (tokens : string * string) (now : Z)
    (req : request) (w : world) :
  limiter (sendOTP env drawn now req w).2
  = (if falsy (phoneNumber req) then limiter w
     else (RateLimiter.checkLimit (phoneNumber req) now (limiter w)).2)
  ∧ limiter (resendOTP env drawn now req w).2
    = (RateLimiter.checkLimit (phoneNumber req) now (limiter w)).2
  ∧ limiter (verifyOTP tokens now req w).2 = limiter w.
Proof.
  split; [|split].
  - unfold sendOTP. destruct (falsy (phoneNumber req)); [done|].
    destruct (RateLimiter.checkLimit _ _ _) as [r limiter'].
    destruct (RateLimiter.allowed r); simpl; [|done].
    destruct (findOne _ _) as [[key user]|]; [|done].
    destruct (User.isActive user); simpl; [|done].
    destruct (User.canRequestOTP now user); simpl; [|done].
    destruct (User.generateOTP drawn now user) as [code user'].
    destruct (sendSMS _ _ _); [done|]. by destruct (development env).
  - unfold resendOTP.
    destruct (RateLimiter.checkLimit _ _ _) as [r limiter'].
    destruct (RateLimiter.allowed r); simpl; [|done].
    destruct (findOne _ _) as [[key user]|]; [|done].
    destruct (pendingExpiry now user); [done|].
    destruct (User.canRequestOTP now user); simpl; [|done].
    destruct (User.generateOTP drawn now user) as [code user'].
    destruct (sendSMS _ _ _); [done|]. by destruct (development env).
  - unfold verifyOTP.
    destruct (falsy (phoneNumber req) || falsy (otp req)); [done|].
    destruct (matchesSixDigits _); simpl; [|done].
    destruct (findOne _ _) as [[key user]|]; [|done].
    destruct (User.isActive user); simpl; [|done].
    destruct (User.verifyOTP _ now user) as [v user'].
    destruct (User.isValid v); simpl; [|done].
    by destruct tokens.
Qed.

(** X13. A request touches no other account: the three handlers leave
    every document stored under a phone number other than the one of the
    request as it was. *)
Theorem other_users_untouched (drawn : string) (tokens : string * string)
    (now : Z) (req : request) (w : world) (k : string) :
  phoneNumber req ≠ Some k →
  users (sendOTP env drawn now req w).2 !! k = users w !! k
  ∧ users (resendOTP env drawn now req w).2 !! k = users w !! k
  ∧ users (verifyOTP tokens now req w).2 !! k = users w !! k.
Proof.
  intros Hk.
  assert (Hkey : ∀ key user,
            findOne (phoneNumber req) (users w) = Some (key, user) → key ≠ k).
  { intros key user [Hp _]%findOne_key ->. done. }
  split; [|split].
  - unfold sendOTP. destruct (falsy (phoneNumber req)); [done|].
    destruct (RateLimiter.checkLimit _ _ _) as [r limiter'].
    destruct (RateLimiter.allowed r); simpl; [|done].
    destruct (findOne _ _) as [[key user]|] eqn:Hfind; [|done].
    specialize (Hkey key user eq_refl).
    destruct (User.isActive user); simpl; [|done].
    destruct (User.canRequestOTP now user); simpl; [|done].
    destruct (User.generateOTP drawn now user) as [code user'].
    destruct (sendSMS _ _ _); simpl; [by rewrite lookup_insert_ne|].
    destruct (development env); simpl; by rewrite !lookup_insert_ne.
  - unfold resendOTP.
    destruct (RateLimiter.checkLimit _ _ _) as [r limiter'].
    destruct (RateLimiter.allowed r); simpl; [|done].
    destruct (findOne _ _) as [[key user]|] eqn:Hfind; [|done].
    specialize (Hkey key user eq_refl).
    destruct (pendingExpiry now user); [done|].
    destruct (User.canRequestOTP now user); simpl; [|done].
    destruct (User.generateOTP drawn now user) as [code user'].
    destruct (sendSMS _ _ _); simpl; [by rewrite lookup_insert_ne|].
    destruct (development env); simpl; by rewrite !lookup_insert_ne.
  - unfold verifyOTP.
    destruct (falsy (phoneNumber req) || falsy (otp req)); [done|].
    destruct (matchesSixDigits _); simpl; [|done].
    destruct (findOne _ _) as [[key user]|] eqn:Hfind; [|done].
    specialize (Hkey key user eq_refl).
    destruct (User.isActive user); simpl; [|done].
    destruct (User.verifyOTP _ now user) as [v user'].
    destruct (User.isValid v); simpl; [|done].
    destruct tokens. simpl. by rewrite !lookup_insert_ne.
Qed.

(** X14. An answer 401, 404 or 429 of [sendOTP] or [resendOTP] means that
    no document was written: the user collection is as it was. *)
Theorem refusal_writes_nothing (drawn : string) (now : Z) (req : request)
    (w : world) :
  (status (sendOTP env drawn now req w).1 ∈ [401; 404; 429] →
   users (sendOTP env drawn now req w).2 = users w)
  ∧ (status (resendOTP env drawn now req w).1 ∈ [401; 404; 429] →
     users (resendOTP env drawn now req w).2 = users w).
Proof.
  assert (Hno : ∀ st : Z, st ∉ [401; 404; 429] → st ∈ [401; 404; 429] → False)
    by (intros st H1 H2; done).
  assert (H200 : (200 : Z) ∉ [401; 404; 429]).
  { rewrite !not_elem_of_cons. repeat split; try lia. apply not_elem_of_nil. }
  assert (H400 : (400 : Z) ∉ [401; 404; 429]).
  { rewrite !not_elem_of_cons. repeat split; try lia. apply not_elem_of_nil. }
  assert (H500 : (500 : Z) ∉ [401; 404; 429]).
  { rewrite !not_elem_of_cons. repeat split; try lia. apply not_elem_of_nil. }
  split.
  - unfold sendOTP. destruct (falsy (phoneNumber req)); [done|].
    destruct (RateLimiter.checkLimit _ _ _) as [r limiter'].
    destruct (RateLimiter.allowed r); simpl; [|done].
    destruct (findOne _ _) as [[key user]|]; [|done].
    destruct (User.isActive user); simpl; [|done].
    destruct (User.canRequestOTP now user); simpl; [|done].
    destruct (User.generateOTP drawn now user) as [code user'].
    destruct (sendSMS _ _ _); simpl; [intros H; by destruct (Hno _ H200 H)|].
    destruct (development env); simpl; [intros H; by destruct (Hno _ H200 H)|].
    unfold sendOTP_catch. destruct (includes _ _); simpl; intros H.
    + by destruct (Hno _ H400 H).
    + by destruct (Hno _ H500 H).
  - unfold resendOTP.
    destruct (RateLimiter.checkLimit _ _ _) as [r limiter'].
    destruct (RateLimiter.allowed r); simpl; [|done].
    destruct (findOne _ _) as [[key user]|]; [|done].
    destruct (pendingExpiry now user); [done|].
    destruct (User.canRequestOTP now user); simpl; [|done].
    destruct (User.generateOTP drawn now user) as [code user'].
    destruct (sendSMS _ _ _); simpl; [intros H; by destruct (Hno _ H200 H)|].
    destruct (development env); simpl; intros H.
    + by destruct (Hno _ H200 H).
    + by destruct (Hno _ H500 H).
Qed.

(** X15. A number the limiter has blocked gets nowhere: inside the hour of
    the block [sendOTP] and [resendOTP] answer 429 with the limiter's
    [retryAfter] and leave the whole state of the server, limiter and
    users, as it was. *)
Theorem blocked_number_429 (drawn : string) (now : Z) (req : request)
    (w : world) (attempt : RateLimiter.entry) :
  limiter w !! template (phoneNumber req) = Some attempt →
  RateLimiter.blocked attempt = true →
  now - RateLimiter.timestamp attempt <= RateLimiter.cleanupInterval →
  (falsy (phoneNumber req) = false →
   status (sendOTP env drawn now req w).1 = 429
   ∧ field "retryAfter" (body (sendOTP env drawn now req w).1)
     = Some (JDate (RateLimiter.timestamp attempt
                    + RateLimiter.cleanupInterval))
   ∧ (sendOTP env drawn now req w).2 = w)
  ∧ status (resendOTP env drawn now req w).1 = 429
  ∧ field "retryAfter" (body (resendOTP env drawn now req w).1)
    = Some (JDate (RateLimiter.timestamp attempt
                   + RateLimiter.cleanupInterval))
  ∧ (resendOTP env drawn now req w).2 = w.
Proof.
  intros Hentry Hblocked Hnow.
  assert (Hcl : RateLimiter.checkLimit (phoneNumber req) now (limiter w)
                = (RateLimiter.Result false
                     (RateLimiter.message
                        (RateLimiter.checkLimit (phoneNumber req) now
                           (limiter w)).1)
                     (Some (RateLimiter.timestamp attempt
                            + RateLimiter.cleanupInterval)),
                   limiter w)).
  { unfold RateLimiter.checkLimit. rewrite Hentry. simpl.
    assert ((RateLimiter.cleanupInterval
             <? now - RateLimiter.timestamp attempt) = false) as ->
      by (apply Z.ltb_ge; lia).
    by rewrite Hblocked. }
  assert (Hw : World (limiter w) (users w) = w) by (by destruct w).
  split.
  - intros Hphone. unfold sendOTP. rewrite Hphone, Hcl. simpl.
    rewrite Hw. unfold rateLimited, object. simpl.
    by destruct (RateLimiter.message _).
  - unfold resendOTP. rewrite Hcl. simpl.
    rewrite Hw. unfold rateLimited, object. simpl.
    by destruct (RateLimiter.message _).
Qed.

(** X16. [verifyOTP] answers 200 only for a six-digit otp, an active
    account found under the phone number and a verification that the
    user's own [verifyOTP] reports valid; the answer then carries the
    signed tokens. *)
Theorem verifyOTP_200_only_if_valid (tokens : string * string) (now : Z)
    (req : request) (w : world) :
  status (verifyOTP tokens now req w).1 = 200 →
  ∃ key user,
    findOne (phoneNumber req) (users w) = Some (key, user)
    ∧ User.isActive user = true
    ∧ matchesSixDigits (template (otp req)) = true
    ∧ User.isValid (User.verifyOTP (template (otp req)) now user).1 = true
    ∧ field "accessToken" (body (verifyOTP tokens now req w).1)
      = Some (JStr tokens.1)
    ∧ field "refreshToken" (body (verifyOTP tokens now req w).1)
      = Some (JStr tokens.2).
Proof.
  unfold verifyOTP.
  destruct (falsy (phoneNumber req) || falsy (otp req)); [done|].
  destruct (matchesSixDigits _); simpl; [|done].
  destruct (findOne _ _) as [[key user]|]; [|done].
  destruct (User.isActive user) eqn:Hactive; simpl; [|done].
  destruct (User.verifyOTP _ now user) as [v user'] eqn:Hv. simpl.
  destruct (User.isValid v) eqn:Hvalid; simpl; [|done].
  destruct tokens as [access refresh]. simpl. intros _.
  exists key, user. rewrite Hv. by repeat split.
Qed.

End HandlerFrames.

Lemma other_users_untouched_witness :
  phoneNumber Sample.request_ ≠ Some "+15557654321"
  ∧ users (sendOTP (M := User.specMethods) Sample.production "042917" 1000
             Sample.request_ (Sample.world_ Sample.alice)).2 !! "+15557654321"
    = users (Sample.world_ Sample.alice) !! "+15557654321".
Proof.
  assert (Hk : phoneNumber Sample.request_ ≠ Some "+15557654321")
    by discriminate.
  split; [exact Hk|].
  exact (proj1 (other_users_untouched (M := User.specMethods)
                  Sample.production "042917" ("access", "refresh") 1000
                  Sample.request_ (Sample.world_ Sample.alice)
                  "+15557654321" Hk)).
Defined.

Lemma blocked_number_429_witness :
  status (resendOTP (M := User.specMethods) Sample.production "042917" 5000
            Sample.request_ (Sample.blockedWorld Sample.alice)).1 = 429
  ∧ (resendOTP (M := User.specMethods) Sample.production "042917" 5000
       Sample.request_ (Sample.blockedWorld Sample.alice)).2
    = Sample.blockedWorld Sample.alice.
Proof.
  pose proof (blocked_number_429 (M := User.specMethods) Sample.production
                "042917" 5000 Sample.request_
                (Sample.blockedWorld Sample.alice)
                (RateLimiter.Entry 11 1000 true)
                eq_refl eq_refl ltac:(vm_compute; discriminate))
    as [_ [Hstatus [_ Hworld]]].
  split; [exact Hstatus | exact Hworld].
Defined.

Lemma verifyOTP_200_only_if_valid_witness :
  status (verifyOTP (M := User.specMethods) ("access", "refresh") 2000
            (Request (Some Sample.phone) (Some "042917"))
            (Sample.world_ Sample.waitingAlice)).1 = 200
  ∧ ∃ key user,
      findOne (Some Sample.phone) (users (Sample.world_ Sample.waitingAlice))
      = Some (key, user)
      ∧ User.isValid (User.specVerifyOtp "042917" 2000 user).1 = true.
Proof.
  assert (H200 : status (verifyOTP (M := User.specMethods)
                           ("access", "refresh") 2000
                           (Request (Some Sample.phone) (Some "042917"))
                           (Sample.world_ Sample.waitingAlice)).1 = 200)
    by reflexivity.
  split; [exact H200|].
  destruct (verifyOTP_200_only_if_valid (M := User.specMethods)
              ("access", "refresh") 2000
              (Request (Some Sample.phone) (Some "042917"))
              (Sample.world_ Sample.waitingAlice) H200)
    as [key [user [Hfind [_ [_ [Hvalid _]]]]]].
  exists key, user. split; [exact Hfind | exact Hvalid].
Defined.

(** ** Start of the module *)

Module StartupFacts.
Import Startup.

Lemma validateEnvVariables_production vars :
  validateEnvVariables vars = Return tt →
  vars !! "NODE_ENV" = Some "production" →
  unset vars "MESSAGEBIRD_API_KEY" = false
  ∨ (unset vars "TWILIO_ACCOUNT_SID" = false
     ∧ unset vars "TWILIO_AUTH_TOKEN" = false).
Proof.
  unfold validateEnvVariables. intros Hok Hprod.
  destruct (0 <? _)%nat; [done|].
  rewrite (bool_decide_eq_true_2 _ Hprod) in Hok. simpl in Hok.
  destruct (unset vars "MESSAGEBIRD_API_KEY"); [|by left].
  destruct (unset vars "TWILIO_ACCOUNT_SID"); [done|].
  destruct (unset vars "TWILIO_AUTH_TOKEN"); [done|].
  by right.
Qed.

(** X17. A process that has started in production mode, with client
    constructors that did not throw, has an SMS client, and [sendSMS]
    never fails with "No SMS service configured" in it. *)
Theorem production_has_sms_client (vars : gmap string string)
    (twilio messagebird : outcome unit) (env : environment) :
  start vars (Some twilio) (Some messagebird) = Return env →
  vars !! "NODE_ENV" = Some "production" →
  NODE_ENV env = "production"
  ∧ (messageBirdClient env ≠ None ∨ twilioClient env ≠ None)
  ∧ ∀ p text,
      sendSMS env p text
      ≠ Throw "No SMS service configured. Please configure MessageBird or Twilio.".
Proof.
  unfold start. intros Hstart Hprod.
  destruct (validateEnvVariables vars) as [[]|m] eqn:Hcheck; [|done].
  injection Hstart as <-. simpl. rewrite Hprod. simpl.
  assert (Hclient :
    (if negb (unset vars "MESSAGEBIRD_API_KEY") then Some messagebird else None)
      ≠ None
    ∨ (if negb (unset vars "TWILIO_ACCOUNT_SID")
          && negb (unset vars "TWILIO_AUTH_TOKEN")
       then Some twilio else None) ≠ None).
  { destruct (validateEnvVariables_production vars Hcheck Hprod)
      as [Hmb|[Hsid Htoken]].
    - left. by rewrite Hmb.
    - right. by rewrite Hsid, Htoken. }
  split; [done|]. split; [done|].
  intros p text. unfold sendSMS. simpl.
  destruct p as [s|]; simpl; [|done].
  destruct (validatePhoneNumber s) as [v|m] eqn:Hv; simpl.
  - assert (Hnot : ∀ o : outcome unit,
              (∀ m, o = Throw m → String.prefix "Failed to send SMS: " m = true) →
              wrapValidation o
              ≠ Throw "No SMS service configured. Please configure MessageBird or Twilio.").
    { intros [[]|m] Hm; simpl; [done|].
      specialize (Hm m eq_refl).
      destruct (includes "phone number" m); [done|].
      intros [= ->]. done. }
    assert (Htry : ∀ e m, tryProviders e = Throw m →
              String.prefix "Failed to send SMS: " m = true).
    { intros e m. unfold tryProviders, tryProvider.
      destruct (messageBirdClient e) as [[[]|?]|];
        destruct (twilioClient e) as [[[]|?]|]; simpl; try done;
        intros [= <-]; reflexivity. }
    destruct (if negb (unset vars "MESSAGEBIRD_API_KEY")
              then Some messagebird else None) eqn:Hmb;
      destruct (if negb (unset vars "TWILIO_ACCOUNT_SID")
                   && negb (unset vars "TWILIO_AUTH_TOKEN")
                then Some twilio else None) eqn:Htw.
    + apply Hnot. intros m. apply Htry.
    + apply Hnot. intros m. apply Htry.
    + apply Hnot. intros m. apply Htry.
    + by destruct Hclient.
  - revert Hv. unfold validatePhoneNumber.
    destruct (negb (matchesInternational (cleanPhoneNumber s)));
      [intros [= <-]; vm_compute; discriminate|].
    destruct (String.length (cleanPhoneNumber s) <? 8)%nat;
      [intros [= <-]; vm_compute; discriminate|].
    destruct (15 <? String.length (cleanPhoneNumber s))%nat;
      [intros [= <-]; vm_compute; discriminate | done].
Qed.

Lemma production_has_sms_client_witness :
  start sampleVars (Some (Return tt)) (Some (Return tt))
  = Return (Environment "production" None (Some (Return tt)))
  ∧ sampleVars !! "NODE_ENV" = Some "production"
  ∧ ∀ p text,
      sendSMS (Environment "production" None (Some (Return tt))) p text
      ≠ Throw "No SMS service configured. Please configure MessageBird or Twilio.".
Proof.
  assert (Hstart : start sampleVars (Some (Return tt)) (Some (Return tt))
                   = Return (Environment "production" None (Some (Return tt))))
    by (vm_compute; reflexivity).
  assert (Hprod : sampleVars !! "NODE_ENV" = Some "production")
    by (vm_compute; reflexivity).
  split; [exact Hstart|]. split; [exact Hprod|].
  exact (proj2 (proj2 (production_has_sms_client sampleVars (Return tt)
                         (Return tt) _ Hstart Hprod))).
Defined.

End StartupFacts.

(** ** Registration *)

Section SignupFacts.

Import Signup.
Context `{Ops : StringOps}.

Lemma signup_cases newId createError req (users : gmap string account) :
  (signup newId createError req users).2 = users
  ∧ Signup.status (signup newId createError req users).1 ≠ 201
  ∨ (users !! cleaned req = None
     ∧ Signup.status (signup newId createError req users).1 = 201
     ∧ ∃ a, (signup newId createError req users).2
            = <[cleaned req := a]> users).
Proof.
  unfold signup.
  destruct (falsy (formUsername req) || falsy (formEmail req)); [by left|].
  destruct (checkbox req); simpl; [|by left].
  destruct (users !! _) eqn:Hfree; [by left|].
  destruct createError as [e|].
  - left. destruct (bool_decide _); [done|].
    by destruct (String.eqb _ _).
  - right. split; [done|]. split; [done|]. by eexists.
Qed.

(** X18. [signup] never overwrites or removes an account: whatever is
    stored stays stored as it is, and the collection changes only with an
    answer 201, which adds one account under an address that was free. *)
Theorem signup_keeps_accounts (newId : string) (createError : option dbError)
    (req : form) (users : gmap string account) :
  (∀ k a, users !! k = Some a →
          (signup newId createError req users).2 !! k = Some a)
  ∧ (Signup.status (signup newId createError req users).1 ≠ 201 →
     (signup newId createError req users).2 = users)
  ∧ (Signup.status (signup newId createError req users).1 = 201 →
     users !! cleaned req = None
     ∧ is_Some ((signup newId createError req users).2 !! cleaned req)).
Proof.
  destruct (signup_cases newId createError req users)
    as [[Hsame Hst]|[Hfree [Hst [b Hadd]]]].
  - split; [|split].
    + intros k a Hk. by rewrite Hsame.
    + done.
    + done.
  - split; [|split].
    + intros k a Hk. rewrite Hadd.
      destruct (decide (cleaned req = k)) as [<-|Hne]; [congruence|].
      by rewrite lookup_insert_ne.
    + done.
    + intros _. split; [done|]. rewrite Hadd, lookup_insert_eq. by eexists.
Qed.

Lemma signup_keeps newId createError req (users : gmap string account) k a :
  users !! k = Some a →
  (signup newId createError req users).2 !! k = Some a.
Proof.
  intros Hk.
  destruct (signup_cases newId createError req users)
    as [[Hsame _]|[Hfree [_ [b Hadd]]]].
  - by rewrite Hsame.
  - rewrite Hadd.
    destruct (decide (cleaned req = k)) as [<-|Hne]; [congruence|].
    by rewrite lookup_insert_ne.
Qed.

Lemma signups_keep reqs :
  ∀ (users : gmap string account) k a,
    users !! k = Some a → (signups reqs users).2 !! k = Some a.
Proof.
  induction reqs as [|[[newId createError] req] rest IH]; intros users k a Hk;
    [done|].
  simpl.
  pose proof (signup_keeps newId createError req users k a Hk) as Hstep.
  destruct (signup newId createError req users) as [ans users'].
  specialize (IH users' k a Hstep).
  by destruct (signups rest users') as [answers final].
Qed.

(** X19. An address registers once: after an answer 201, and whatever
    signup requests come in between, a request whose address cleans to
    the same string is answered 400 and changes nothing. *)
Theorem signup_once (id1 id2 : string) (e1 e2 : option dbError)
    (req1 req2 : form) (between : list (string * option dbError * form))
    (users : gmap string account) :
  Signup.status (signup id1 e1 req1 users).1 = 201 →
  cleaned req2 = cleaned req1 →
  Signup.status
    (signup id2 e2 req2 (signups between (signup id1 e1 req1 users).2).2).1
  = 400
  ∧ (signup id2 e2 req2 (signups between (signup id1 e1 req1 users).2).2).2
    = (signups between (signup id1 e1 req1 users).2).2.
Proof.
  intros H201 Hsame.
  destruct (signup_cases id1 e1 req1 users)
    as [[_ Hst]|[_ [_ [a Hadd]]]]; [done|].
  assert (Htaken : (signups between (signup id1 e1 req1 users).2).2
                   !! cleaned req2 = Some a).
  { apply signups_keep. rewrite Hadd, Hsame. apply lookup_insert_eq. }
  unfold signup at 1 3.
  destruct (falsy (formUsername req2) || falsy (formEmail req2)); [done|].
  destruct (checkbox req2); simpl; [|done].
  by rewrite Htaken.
Qed.

(** X20. The form and the handler agree: a form that [handleSubmit] lets
    through passes the two presence checks of [signup]; the answer is 400
    "Email already exists" when the cleaned address is taken and 201
    otherwise, as long as the database raises no error. *)
Theorem submitted_form_is_accepted (data : formData) (req : form)
    (newId : string) (users : gmap string account) :
  handleSubmit data = inr req →
  (signup newId None req users).1
  = match users !! cleaned req with
    | Some _ => refuse 400 "Email already exists"
    | None =>
        Answer 201 true None (Some "Registration successful")
          (Some (newId, trim (trim (typedUsername data)), cleaned req))
    end.
Proof.
  unfold handleSubmit.
  destruct (String.eqb_spec (trim (typedUsername data)) "") as [|Hname];
    [done|].
  destruct (String.eqb_spec (trim (typedEmail data)) "") as [|Hmail];
    [done|].
  destruct (ticked data) eqn:Hticked; simpl; [|done].
  intros [= <-]. unfold signup, cleaned.
  cbn [formUsername formEmail checkbox template].
  assert (Hf : ∀ s, s ≠ "" → falsy (Some s) = false)
    by (intros [|c s] Hs; done).
  rewrite (Hf _ Hname), (Hf _ Hmail). simpl.
  by destruct (users !! _).
Qed.

End SignupFacts.

Lemma signup_once_witness :
  Signup.status
    (Signup.signup (Ops := Signup.sampleOps) "id1" None
       (Signup.Form (Some "Ann") (Some "Ann@Example.com") true) ∅).1 = 201
  ∧ Signup.status
      (Signup.signup (Ops := Signup.sampleOps) "id2" None
         (Signup.Form (Some "Ann B") (Some " ann@example.COM ") true)
         (Signup.signup (Ops := Signup.sampleOps) "id1" None
            (Signup.Form (Some "Ann") (Some "Ann@Example.com") true) ∅).2).1
    = 400.
Proof.
  assert (H201 : Signup.status
            (Signup.signup (Ops := Signup.sampleOps) "id1" None
               (Signup.Form (Some "Ann") (Some "Ann@Example.com") true) ∅).1
            = 201) by reflexivity.
  split; [exact H201|].
  exact (proj1 (signup_once (Ops := Signup.sampleOps) "id1" "id2" None None
                  (Signup.Form (Some "Ann") (Some "Ann@Example.com") true)
                  (Signup.Form (Some "Ann B") (Some " ann@example.COM ") true)
                  [] ∅ H201 eq_refl)).
Defined.

Lemma submitted_form_is_accepted_witness :
  Signup.handleSubmit (Ops := Signup.sampleOps)
    (Signup.FormData " Ann " "Ann@Example.com " true)
  = inr (Signup.Form (Some "Ann") (Some "Ann@Example.com") true)
  ∧ Signup.status
      (Signup.signup (Ops := Signup.sampleOps) "id1" None
         (Signup.Form (Some "Ann") (Some "Ann@Example.com") true) ∅).1 = 201.
Proof.
  assert (Hform : Signup.handleSubmit (Ops := Signup.sampleOps)
                    (Signup.FormData " Ann " "Ann@Example.com " true)
                  = inr (Signup.Form (Some "Ann") (Some "Ann@Example.com") true))
    by reflexivity.
  split; [exact Hform|].
  pose proof (submitted_form_is_accepted (Ops := Signup.sampleOps)
                (Signup.FormData " Ann " "Ann@Example.com " true) _ "id1" ∅
                Hform) as Hanswer.
  rewrite Hanswer. reflexivity.
Defined.

Section SignupModalFacts.

Context `{Ops : Signup.StringOps}.

(** X25. The modal tests the inputs untrimmed: a form it lets through is
    turned down by [signup] with "Please provide both name and email"
    exactly when the name or the address is blank once trimmed; otherwise,
    when the database raises no error, the answer is 400 "Email already
    exists" for a taken address and 201 for a free one. *)
Theorem modal_form_may_be_blank (data : Signup.formData) (req : Signup.form)
    (newId : string) (users : gmap string Signup.account) :
  SignupModal.handleSubmit data = inr req →
  (Signup.signup newId None req users).1
  = if String.eqb (Signup.trim (Signup.typedUsername data)) ""
       || String.eqb (Signup.trim (Signup.typedEmail data)) ""
    then Signup.refuse 400 "Please provide both name and email"
    else match users !! Signup.cleaned req with
         | Some _ => Signup.refuse 400 "Email already exists"
         | None =>
             Signup.Answer 201 true None (Some "Registration successful")
               (Some (newId,
                      Signup.trim (Signup.trim (Signup.typedUsername data)),
                      Signup.cleaned req))
         end.
Proof.
  unfold SignupModal.handleSubmit.
  destruct (String.eqb (Signup.typedUsername data) ""
            || String.eqb (Signup.typedEmail data) ""); [done|].
  destruct (Signup.ticked data); simpl; [|done].
  intros [= <-]. unfold Signup.signup, Signup.cleaned.
  cbn [Signup.formUsername Signup.formEmail Signup.checkbox template].
  assert (Hf : ∀ s, falsy (Some s) = String.eqb s "")
    by (intros [|c s]; done).
  rewrite !Hf.
  destruct (String.eqb (Signup.trim (Signup.typedUsername data)) ""
            || String.eqb (Signup.trim (Signup.typedEmail data)) ""); [done|].
  simpl. by destruct (users !! _).
Qed.

End SignupModalFacts.

Lemma modal_form_may_be_blank_witness :
  SignupModal.handleSubmit (Ops := Signup.sampleOps)
    (Signup.FormData "  " "Ann@Example.com" true)
  = inr (Signup.Form (Some "") (Some "Ann@Example.com") true)
  ∧ (Signup.signup (Ops := Signup.sampleOps) "id1" None
       (Signup.Form (Some "") (Some "Ann@Example.com") true) ∅).1
    = Signup.refuse 400 "Please provide both name and email".
Proof.
  assert (Hform : SignupModal.handleSubmit (Ops := Signup.sampleOps)
                    (Signup.FormData "  " "Ann@Example.com" true)
                  = inr (Signup.Form (Some "") (Some "Ann@Example.com") true))
    by reflexivity.
  split; [exact Hform|].
  pose proof (modal_form_may_be_blank (Ops := Signup.sampleOps)
                (Signup.FormData "  " "Ann@Example.com" true) _ "id1" ∅
                Hform) as Hanswer.
  rewrite Hanswer. reflexivity.
Defined.

(** ** Sessions *)

Section SessionFacts.

Import Session.
Context `{J : Jwt}.

Lemma refreshToken_200 tokens presented (users : gmap string User.user) :
  status (refreshToken tokens presented users).1 = 200 →
  ∃ id user,
    verify (template presented) = Some id
    ∧ users !! id = Some user
    ∧ User.refreshToken user = presented
    ∧ User.isActive user = true
    ∧ (refreshToken tokens presented users).2
      = <[id := User.User_ (User.isActive user) (User.phoneOTP user)
                  (User.otpRequestCount user) (Some tokens.2)]> users.
Proof.
  unfold refreshToken.
  destruct (falsy presented); [done|].
  destruct (verify (template presented)) as [id|] eqn:Hid; [|done].
  destruct (users !! id) as [user|] eqn:Huser; [|done].
  destruct (bool_decide_reflect (User.refreshToken user = presented)) as [Heq|];
    simpl; [|done].
  destruct (User.isActive user) eqn:Hactive; simpl; [|done].
  intros _. exists id, user. rewrite Hactive. by repeat split.
Qed.

(** X21. Refresh tokens rotate. An answer 200 is given only for the token
    stored for an active user, and it stores the new refresh token in its
    place: the token just used, presented again, is answered 401 and
    changes nothing, unless the new token is the same string. *)
Theorem refreshToken_rotates (tokens tokens' : string * string)
    (presented : option string) (users : gmap string User.user) :
  status (refreshToken tokens presented users).1 = 200 →
  Some tokens.2 ≠ presented →
  status (refreshToken tokens' presented
            (refreshToken tokens presented users).2).1 = 401
  ∧ (refreshToken tokens' presented (refreshToken tokens presented users).2).2
    = (refreshToken tokens presented users).2.
Proof.
  intros H200 Hnew.
  destruct (refreshToken_200 tokens presented users H200)
    as [id [user [Hid [Huser [Hstored [Hactive Hafter]]]]]].
  rewrite Hafter. unfold refreshToken.
  destruct (falsy presented) eqn:Hfalsy.
  { revert H200. unfold refreshToken. by rewrite Hfalsy. }
  rewrite Hid, lookup_insert_eq. simpl.
  by rewrite bool_decide_eq_false_2.
Qed.

(** X22. Logging out ends the session: after [logout] for a user, whether
    it found the user or not, no refresh token signed for that user is
    answered 200, and the attempt changes nothing. [logout] itself answers
    500 for a user it does not find and 200 otherwise. *)
Theorem logout_ends_session (id : string) (tokens : string * string)
    (presented : option string) (users : gmap string User.user) :
  verify (template presented) = Some id →
  status (refreshToken tokens presented (logout id users).2).1 ≠ 200
  ∧ (refreshToken tokens presented (logout id users).2).2
    = (logout id users).2
  ∧ status (logout id users).1
    = match users !! id with
      | Some _ => 200
      | None => 500
      end.
Proof.
  intros Hid. unfold logout.
  destruct (users !! id) as [user|] eqn:Huser; simpl.
  - unfold refreshToken.
    destruct (falsy presented) eqn:Hfalsy; [done|].
    rewrite Hid, lookup_insert_eq. simpl.
    destruct presented as [token|]; [|done].
    by rewrite bool_decide_eq_false_2.
  - unfold refreshToken.
    destruct (falsy presented); [done|].
    by rewrite Hid, Huser.
Qed.

End SessionFacts.

Lemma refreshToken_rotates_witness :
  status (Session.refreshToken (J := Session.sampleJwt)
            ("at-2", "rt-u1-2") (Some "rt-u1-1") Session.sampleUsers).1 = 200
  ∧ status (Session.refreshToken (J := Session.sampleJwt)
              ("at-3", "rt-u1-3") (Some "rt-u1-1")
              (Session.refreshToken (J := Session.sampleJwt)
                 ("at-2", "rt-u1-2") (Some "rt-u1-1")
                 Session.sampleUsers).2).1 = 401.
Proof.
  assert (H200 : status (Session.refreshToken (J := Session.sampleJwt)
                           ("at-2", "rt-u1-2") (Some "rt-u1-1")
                           Session.sampleUsers).1 = 200) by reflexivity.
  split; [exact H200|].
  exact (proj1 (refreshToken_rotates (J := Session.sampleJwt)
                  ("at-2", "rt-u1-2") ("at-3", "rt-u1-3") (Some "rt-u1-1")
                  Session.sampleUsers H200 ltac:(discriminate))).
Defined.

Lemma logout_ends_session_witness :
  Session.verify (Jwt := Session.sampleJwt) "rt-u1-1" = Some "u1"
  ∧ status (Session.refreshToken (J := Session.sampleJwt)
              ("at-2", "rt-u1-2") (Some "rt-u1-1")
              (Session.logout "u1" Session.sampleUsers).2).1 ≠ 200.
Proof.
  assert (Hid : Session.verify (Jwt := Session.sampleJwt)
                  (template (Some "rt-u1-1")) = Some "u1") by reflexivity.
  split; [exact Hid|].
  exact (proj1 (logout_ends_session (J := Session.sampleJwt) "u1"
                  ("at-2", "rt-u1-2") (Some "rt-u1-1") Session.sampleUsers
                  Hid)).
Defined.

Section SendAndResend.

Context `{M : User.Methods}.
Variable env : environment.

(** X23. Where [resendOTP] and [sendOTP] do follow one contract: for a
    request that names a phone number, when the account found (if any) is
    active and has no OTP that is still pending, the two handlers leave
    the same state and answer with the same status - but for a failed
    delivery, which [resendOTP] always answers 500 and [sendOTP] may
    answer 400. *)
Theorem resend_like_send (drawn : string) (now : Z) (req : request)
    (w : world) :
  falsy (phoneNumber req) = false →
  (∀ key user,
     findOne (phoneNumber req) (users w) = Some (key, user) →
     User.isActive user = true ∧ pendingExpiry now user = None) →
  (resendOTP env drawn now req w).2 = (sendOTP env drawn now req w).2
  ∧ (status (resendOTP env drawn now req w).1
     = status (sendOTP env drawn now req w).1
     ∨ (status (resendOTP env drawn now req w).1 = 500
        ∧ status (sendOTP env drawn now req w).1 = 400)).
Proof.
  intros Hphone Huser. unfold resendOTP, sendOTP. rewrite Hphone.
  destruct (RateLimiter.checkLimit _ _ _) as [r limiter'].
  destruct (RateLimiter.allowed r); simpl; [|by split; [|left]].
  destruct (findOne _ _) as [[key user]|]; [|by split; [|left]].
  destruct (Huser key user eq_refl) as [-> ->]. simpl.
  destruct (User.canRequestOTP now user); simpl; [|by split; [|left]].
  destruct (User.generateOTP drawn now user) as [code user'].
  unfold sendSMS.
  destruct (wrapValidation _); simpl; [by split; [|left]|].
  destruct (development env); simpl; [by split; [|left]|].
  split; [done|]. unfold sendOTP_catch.
  destruct (includes _ _); simpl; [by right | by left].
Qed.

End SendAndResend.

Lemma resend_like_send_witness :
  (resendOTP (M := User.specMethods) Sample.production "042917" 1000
     Sample.request_ (Sample.world_ Sample.alice)).2
  = (sendOTP (M := User.specMethods) Sample.production "042917" 1000
       Sample.request_ (Sample.world_ Sample.alice)).2.
Proof.
  apply (resend_like_send (M := User.specMethods) Sample.production "042917"
           1000 Sample.request_ (Sample.world_ Sample.alice)).
  - reflexivity.
  - intros key user Hfind. vm_compute in Hfind. injection Hfind as <- <-.
    split; reflexivity.
Defined.

(** ** A series of OTP requests *)

Section TrafficFacts.

Import Traffic.
Context `{M : User.Methods}.
Variable env : environment.

Lemma handle_limiter r drawn now req w :
  falsy (phoneNumber req) = false →
  limiter (handle env (r, drawn, now, req) w).2
  = (RateLimiter.checkLimit (phoneNumber req) now (limiter w)).2.
Proof.
  intros Hphone. destruct r; simpl.
  - unfold sendOTP. rewrite Hphone.
    destruct (RateLimiter.checkLimit _ _ _) as [res limiter'].
    destruct (RateLimiter.allowed res); simpl; [|done].
    destruct (findOne _ _) as [[key user]|]; [|done].
    destruct (User.isActive user); simpl; [|done].
    destruct (User.canRequestOTP now user); simpl; [|done].
    destruct (User.generateOTP drawn now user) as [code user'].
    destruct (sendSMS _ _ _); [done|]. by destruct (development env).
  - unfold resendOTP.
    destruct (RateLimiter.checkLimit _ _ _) as [res limiter'].
    destruct (RateLimiter.allowed res); simpl; [|done].
    destruct (findOne _ _) as [[key user]|]; [|done].
    destruct (pendingExpiry now user); [done|].
    destruct (User.canRequestOTP now user); simpl; [|done].
    destruct (User.generateOTP drawn now user) as [code user'].
    destruct (sendSMS _ _ _); [done|]. by destruct (development env).
Qed.

Lemma handle_refused r drawn now req w :
  falsy (phoneNumber req) = false →
  RateLimiter.allowed
    (RateLimiter.checkLimit (phoneNumber req) now (limiter w)).1 = false →
  status (handle env (r, drawn, now, req) w).1 = 429.
Proof.
  intros Hphone Hrefused. destruct r; simpl.
  - unfold sendOTP. rewrite Hphone.
    destruct (RateLimiter.checkLimit _ _ _) as [res limiter'].
    simpl in Hrefused. by rewrite Hrefused.
  - unfold resendOTP.
    destruct (RateLimiter.checkLimit _ _ _) as [res limiter'].
    simpl in Hrefused. by rewrite Hrefused.
Qed.

Lemma passed_cons answer answers :
  (passed (answer :: answers)
   <= (if bool_decide (status answer = 429%Z) then 0 else 1) + passed answers)%nat.
Proof.
  unfold passed. case_bool_decide as Hst.
  - rewrite filter_cons_False by (intros Hne; by apply Hne). simpl. lia.
  - rewrite filter_cons_True by done. simpl. lia.
Qed.

Lemma serve_capacity p a calls :
  ∀ w,
    falsy (Some p) = false →
    map_Forall (λ _ e, RateLimiter.entry_ok e) (limiter w) →
    Forall (for_number p a) calls →
    Z.of_nat (passed (serve env calls w).1)
    <= RateLimiterRuns.capacity a p (limiter w).
Proof.
  induction calls as [|[[[r drawn] now] req] rest IH]; intros w Hp Hok Hall.
  - simpl. by apply RateLimiterRunFacts.capacity_nonneg.
  - apply Forall_cons in Hall as [[Hreq Hnow] Hall]. simpl in Hreq, Hnow.
    assert (Hphone : falsy (phoneNumber req) = false) by (by rewrite Hreq).
    pose proof (handle_limiter r drawn now req w Hphone) as Hlim.
    pose proof (handle_refused r drawn now req w Hphone) as Href.
    pose proof (RateLimiterFacts.checkLimit_entry_ok (phoneNumber req) now
                  (limiter w) Hok) as Hok'.
    pose proof (RateLimiterRunFacts.checkLimit_capacity a (phoneNumber req)
                  now (limiter w) Hok Hnow) as Hcap.
    rewrite Hreq in Hcap, Hok', Hlim, Href. simpl in Hcap.
    cbn [serve].
    destruct (handle env (r, drawn, now, req) w) as [answer w'].
    simpl in Hlim, Href. rewrite <- Hlim in Hcap, Hok'.
    specialize (IH w' Hp Hok' Hall).
    destruct (serve env rest w') as [answers final]. simpl in *.
    pose proof (passed_cons answer answers) as Hcount.
    destruct (RateLimiter.allowed
                (RateLimiter.checkLimit (Some p) now (limiter w)).1) eqn:Hal;
      case_bool_decide as Hst;
      first [lia | by specialize (Href eq_refl)].
Qed.

(** X24. The limit holds for the handlers: of the send and resend
    requests for one phone number whose clock readings lie in one span of
    an hour, in whatever order and whatever becomes of them, at most 19
    get an answer other than 429, and at most 10 when the limiter has no
    entry for the number at the start. *)
Theorem otp_requests_bounded (p : string) (a : Z)
    (calls : list (route * string * Z * request)) (w : world) :
  falsy (Some p) = false →
  map_Forall (λ _ e, RateLimiter.entry_ok e) (limiter w) →
  Forall (for_number p a) calls →
  (passed (serve env calls w).1 <= 19)%nat
  ∧ (limiter w !! p = None → (passed (serve env calls w).1 <= 10)%nat).
Proof.
  intros Hp Hok Hall.
  pose proof (serve_capacity p a calls w Hp Hok Hall) as Hserve.
  pose proof (RateLimiterRunFacts.capacity_le_19 a p (limiter w) Hok) as H19.
  split; [lia|]. intros Hnone.
  unfold RateLimiterRuns.capacity in Hserve. rewrite Hnone in Hserve. lia.
Qed.

End TrafficFacts.

Lemma otp_requests_bounded_witness :
  falsy (Some Sample.phone) = false
  ∧ Forall (Traffic.for_number Sample.phone 0) Traffic.dozen
  ∧ (Traffic.passed
       (Traffic.serve (M := User.specMethods) Sample.production Traffic.dozen
          (Sample.world_ Sample.alice)).1 <= 10)%nat.
Proof.
  assert (Hp : falsy (Some Sample.phone) = false) by reflexivity.
  assert (Hall : Forall (Traffic.for_number Sample.phone 0) Traffic.dozen).
  { unfold Traffic.dozen. simpl.
    repeat constructor; simpl; unfold RateLimiter.cleanupInterval; lia. }
  split; [exact Hp|]. split; [exact Hall|].
  exact (proj2 (otp_requests_bounded (M := User.specMethods) Sample.production
                  Sample.phone 0 Traffic.dozen (Sample.world_ Sample.alice)
                  Hp (map_Forall_empty _) Hall) eq_refl).
Defined.


(** Twelve requests for a number nobody has registered: ten get as far as
    the user lookup and are answered 404, the last two are stopped by the
    limiter. *)
Example dozen_unknown_number :
  status <$> (Traffic.serve (M := User.specMethods) Sample.production
                Traffic.dozen (World ∅ ∅)).1
  = [404; 404; 404; 404; 404; 404; 404; 404; 404; 404; 429; 429].
Proof. vm_compute. reflexivity. Qed.

(** ** Password reset and e-mail verification *)

Section RecoveryFacts.

Import Recovery.
Context `{C : Crypto}.

Lemma cleared_no_match hash now expire :
  ¬ matches hash now None expire.
Proof. by intros [? _]. Qed.




(** X28. A token that is absent, wrong or expired, and a [save] that
    fails, leave every account as it was: [resetPassword] and
    [verifyEmail] change the collection only with an answer 200, and every
    other answer is a 400. *)
Theorem recovery_failure_changes_nothing (now : Z)
    (saveError : option Signup.dbError) (token newPassword : option string)
    (mailToken : string) (users : list account) :
  (status (resetPassword now saveError token newPassword users).1 ≠ 200 →
   status (resetPassword now saveError token newPassword users).1 = 400
   ∧ (resetPassword now saveError token newPassword users).2 = users)
  ∧ (status (verifyEmail now saveError mailToken users).1 ≠ 200 →
     status (verifyEmail now saveError mailToken users).1 = 400
     ∧ (verifyEmail now saveError mailToken users).2 = users).
Proof.
  split.
  - unfold resetPassword. destruct token as [t|]; [|done].
    destruct (list_find _ users) as [[index user]|]; [|done].
    by destruct saveError.
  - unfold verifyEmail.
    destruct (list_find _ users) as [[index user]|]; [|done].
    by destruct saveError.
Qed.

End RecoveryFacts.



(** ** Login *)

Section LoginFacts.

Import Login.
Context `{L : Methods}.

(** X29. [login] answers 200, with tokens, only for an account that is
    found, active and not locked and whose password compares equal, and it
    then stores the new refresh token with the account. For an account
    that is deactivated or locked the answer is 401 whatever the password
    is, the password is not compared and nothing is written. *)
Theorem login_guards (now : Z) (tokens : string * string)
    (address password : option string) (users : gmap string account) :
  (Login.status (login now tokens address password users).1 = 200 →
   ∃ key user,
     address = Some key
     ∧ users !! key = Some user
     ∧ isActive user = true
     ∧ isLocked now user = false
     ∧ comparePassword password user = Some true
     ∧ newRefreshToken (login now tokens address password users).1
       = Some tokens.2
     ∧ refreshToken
         <$> (login now tokens address password users).2 !! key
       = Some (Some tokens.2))
  ∧ (∀ key user,
       address = Some key →
       users !! key = Some user →
       isActive user = false ∨ isLocked now user = true →
       Login.status (login now tokens address password users).1 = 401
       ∧ (login now tokens address password users).2 = users).
Proof.
  split.
  - unfold login. destruct address as [key|]; [|done].
    destruct (users !! key) as [user|] eqn:Huser; [|done].
    destruct (isActive user) eqn:Hactive; simpl; [|done].
    destruct (isLocked now user) eqn:Hlocked; [done|].
    destruct (comparePassword password user) as [[]|] eqn:Hpw; [|done|done].
    simpl. intros _. exists key, user.
    rewrite Huser, Hactive, Hlocked, Hpw, lookup_insert_eq. by repeat split.
  - intros key user -> Huser Hbad. unfold login. rewrite Huser.
    destruct (isActive user); simpl; [|done].
    destruct Hbad as [Hbad|Hbad]; [done | by rewrite Hbad].
Qed.

End LoginFacts.
